(** * langservehub command line: manifest store, identifier resolver,
      registration workflow

    A shallow embedding of [cli/langservehub/cli.py].  Python objects are
    modelled as values of an inductive type, dictionaries as association
    lists in insertion order, exceptions as an error result, and every
    command as a state-passing function over the part of the outside world
    it touches (files, environment, standard output, shell commands). *)

From Stdlib Require Import String Ascii ZArith List Bool Lia.
From stdpp Require Import gmap strings pretty.
Import ListNotations.

Local Open Scope string_scope.
Local Open Scope list_scope.
Set Warnings "-register-all".

(** ** Python values *)

(** The three types [tomllib] gives for TOML dates and times. *)
Inductive date_kind : Type :=
| DateTime
| LocalDate
| LocalTime.

(** The values a parsed TOML document can hold, plus [None] and tuples,
    which the code itself creates.  A string is the UTF-8 encoding of a
    Python [str]. *)
Inductive value : Type :=
| VNone
| VStr (s : string)
| VInt (z : Z)
| VBool (b : bool)
| VFloat (repr : string)
| VDate (kind : date_kind) (repr : string)
| VList (items : list value)
| VTuple (items : list value)
| VDict (entries : list (string * value)).

(** A [dict] keeps its keys in insertion order. *)
Definition dict : Type := list (string * value).

Definition type_name (v : value) : string :=
  match v with
  | VNone => "NoneType"
  | VStr _ => "str"
  | VInt _ => "int"
  | VBool _ => "bool"
  | VFloat _ => "float"
  | VDate DateTime _ => "datetime.datetime"
  | VDate LocalDate _ => "datetime.date"
  | VDate LocalTime _ => "datetime.time"
  | VList _ => "list"
  | VTuple _ => "tuple"
  | VDict _ => "dict"
  end.

(** ** Exceptions *)

Inductive exn : Type :=
| KeyError (key : string)
| ValueError (msg : string)
| TypeError (msg : string)
| AttributeError (msg : string)
| FileNotFoundError (path : string)
| TOMLDecodeError
| HTTPError (code : Z)
| NotFoundError (path : string)
| OtherError (msg : string).

Inductive result (A : Type) : Type :=
| Ok (a : A)
| Err (e : exn).
Arguments Ok {A} a.
Arguments Err {A} e.

(** ** Dictionary primitives *)

Fixpoint dict_get (d : dict) (k : string) : option value :=
  match d with
  | [] => None
  | (k', v) :: rest => if String.eqb k' k then Some v else dict_get rest k
  end.

(** [d[k] = v]: an existing key keeps its position, a new one goes last. *)
Fixpoint dict_set (d : dict) (k : string) (v : value) : dict :=
  match d with
  | [] => [(k, v)]
  | (k', v') :: rest =>
      if String.eqb k' k then (k, v) :: rest else (k', v') :: dict_set rest k v
  end.

Fixpoint dict_del (d : dict) (k : string) : dict :=
  match d with
  | [] => []
  | (k', v') :: rest =>
      if String.eqb k' k then rest else (k', v') :: dict_del rest k
  end.

Definition dict_mem (d : dict) (k : string) : bool :=
  match dict_get d k with Some _ => true | None => false end.

Fixpoint str_contains (needle hay : string) : bool :=
  String.prefix needle hay
  || match hay with
     | EmptyString => false
     | String _ rest => str_contains needle rest
     end.

Definition is_str (k : string) (v : value) : bool :=
  match v with VStr s => String.eqb s k | _ => false end.

(** [v[k]] for a string subscript [k]. *)
Definition py_getitem (v : value) (k : string) : result value :=
  match v with
  | VDict d =>
      match dict_get d k with Some x => Ok x | None => Err (KeyError k) end
  | VStr _ => Err (TypeError "string indices must be integers, not 'str'")
  | VList _ => Err (TypeError "list indices must be integers or slices, not str")
  | VTuple _ => Err (TypeError "tuple indices must be integers or slices, not str")
  | _ => Err (TypeError ("'" +:+ type_name v +:+ "' object is not subscriptable"))
  end.

Definition no_attribute (v : value) (attr : string) : exn :=
  AttributeError
    ("'" +:+ type_name v +:+ "' object has no attribute '" +:+ attr +:+ "'").

(** [v.get(k, default)]; only dictionaries have the method. *)
Definition py_get (v : value) (k : string) (default : value) : result value :=
  match v with
  | VDict d =>
      match dict_get d k with Some x => Ok x | None => Ok default end
  | _ => Err (no_attribute v "get")
  end.

(** [k in v] for a string [k]. *)
Definition py_contains (k : string) (v : value) : result bool :=
  match v with
  | VDict d => Ok (dict_mem d k)
  | VStr s => Ok (str_contains k s)
  | VList l | VTuple l => Ok (existsb (is_str k) l)
  | _ => Err (TypeError
                ("argument of type '" +:+ type_name v +:+ "' is not iterable"))
  end.

(** [v[k] = x] for a string subscript [k]; the updated container. *)
Definition py_setitem (v : value) (k : string) (x : value) : result value :=
  match v with
  | VDict d => Ok (VDict (dict_set d k x))
  | VList _ => Err (TypeError "list indices must be integers or slices, not str")
  | _ => Err (TypeError
                ("'" +:+ type_name v +:+ "' object does not support item assignment"))
  end.

(** [v.pop(k)] for a string [k]; the container left behind. *)
Definition py_pop (v : value) (k : string) : result value :=
  match v with
  | VDict d =>
      match dict_get d k with
      | Some _ => Ok (VDict (dict_del d k))
      | None => Err (KeyError k)
      end
  | VList _ => Err (TypeError "'str' object cannot be interpreted as an integer")
  | _ => Err (no_attribute v "pop")
  end.

(** [v.items()]. *)
Definition py_items (v : value) : result (list (string * value)) :=
  match v with
  | VDict d => Ok d
  | _ => Err (no_attribute v "items")
  end.

(** ** State and exceptions

    A computation over a mutable state [S] returns a result or raises, and
    in both cases leaves a state behind: what was mutated before an
    exception stays mutated. *)

Definition M (S A : Type) : Type := S -> result A * S.

Definition ret {S A} (a : A) : M S A := fun s => (Ok a, s).
Definition raise {S A} (e : exn) : M S A := fun s => (Err e, s).
Definition bind {S A B} (c : M S A) (k : A -> M S B) : M S B :=
  fun s => match c s with
           | (Ok a, s') => k a s'
           | (Err e, s') => (Err e, s')
           end.
Definition lift {S A} (r : result A) : M S A := fun s => (r, s).
Definition get_state {S} : M S S := fun s => (Ok s, s).
Definition put_state {S} (s : S) : M S unit := fun _ => (Ok tt, s).

Declare Scope py_scope.
Delimit Scope py_scope with py.
Notation "x <- c ;; k" := (bind c (fun x => k))
  (at level 100, c at next level, right associativity) : py_scope.
Notation "c ;; k" := (bind c (fun _ => k))
  (at level 100, right associativity) : py_scope.
Local Open Scope py_scope.

(** ** The manifest document: [class PyProject] *)

Record PyProject : Type := mkPyProject {
  data : dict;
  path : option string
}.

(** [self.data["tool"]]. *)
Definition tool (self : PyProject) : result value :=
  py_getitem (VDict (data self)) "tool".

(** [self.data["tool"].get("langserve", {})]. *)
Definition tool_langserve (self : PyProject) : result value :=
  match tool self with
  | Ok t => py_get t "langserve" (VDict [])
  | Err e => Err e
  end.

Definition _get_langserve_path_dict (self : PyProject) : result value :=
  match tool_langserve self with
  | Ok ls => py_get ls "paths" (VDict [])
  | Err e => Err e
  end.

(** [self.data["tool"]["langserve"] = langserve] stores into the table
    held under ["tool"], which stays where it is in [self.data]. *)
Definition _set_langserve_path_dict (path_dict : value) : M PyProject unit :=
  self <- get_state ;;
  langserve <- lift (tool_langserve self) ;;
  langserve <- lift (py_setitem langserve "paths" path_dict) ;;
  t <- lift (tool self) ;;
  t <- lift (py_setitem t "langserve" langserve) ;;
  put_state (mkPyProject (dict_set (data self) "tool" t) (path self)).

Definition is_langserve (self : PyProject) : result bool :=
  match tool self with
  | Ok t => py_contains "langserve" t
  | Err e => Err e
  end.

(** [paths] is the table inside the document when there is one, so
    [paths[path] = module] already changes the document; writing the
    table back afterwards stores the same table again. *)
Definition add_langserve_path (p : string) (module : value)
  : M PyProject unit :=
  self <- get_state ;;
  paths <- lift (_get_langserve_path_dict self) ;;
  paths <- lift (py_setitem paths p module) ;;
  _set_langserve_path_dict paths.

Definition remove_langserve_path (p : string) : M PyProject unit :=
  self <- get_state ;;
  paths <- lift (_get_langserve_path_dict self) ;;
  paths <- lift (py_pop paths p) ;;
  _set_langserve_path_dict paths.

Definition get_langserve_paths (self : PyProject) : result value :=
  _get_langserve_path_dict self.

(** ** The outside world *)

(** What a command can read or change: the files and directories on disk,
    the process environment, the lines written to standard output, and the
    shell commands that were run, oldest first.  Opening a path for writing
    always succeeds: the store has no permissions. *)
Record World : Type := mkWorld {
  files : gmap string string;
  dirs : gset string;
  environ : gmap string string;
  stdout : list string;
  shell : list string
}.

Definition with_files (f : gmap string string) (w : World) : World :=
  mkWorld f (dirs w) (environ w) (stdout w) (shell w).

(** [typer.echo(line)] and [print(line)]. *)
Definition echo (line : string) : M World unit :=
  fun w => (Ok tt,
            mkWorld (files w) (dirs w) (environ w) (stdout w ++ [line]) (shell w)).

(** [open(p, "rb")] followed by reading the whole file. *)
Definition read_file (p : string) : M World string :=
  fun w => match files w !! p with
           | Some content => (Ok content, w)
           | None => (Err (FileNotFoundError p), w)
           end.

(** [open(p, "wb")] followed by writing [content]. *)
Definition write_file (p content : string) : M World unit :=
  fun w => (Ok tt, with_files (<[p := content]> (files w)) w).

Definition mkdir (p : string) : M World unit :=
  fun w => (Ok tt,
            mkWorld (files w) ({[p]} ∪ dirs w) (environ w) (stdout w) (shell w)).

(** Runs a method of a document held in a local variable of a command and
    gives the document it leaves behind. *)
Definition call {A} (method : M PyProject A) (self : PyProject)
  : M World (A * PyProject) :=
  fun w => match method self with
           | (Ok a, self') => (Ok (a, self'), w)
           | (Err e, _) => (Err e, w)
           end.

Fixpoint for_each {S A} (l : list A) (body : A -> M S unit) : M S unit :=
  match l with
  | [] => ret tt
  | x :: rest => body x ;; for_each rest body
  end.

(** The remote tree served by the hub: a file is the outcome of fetching
    it, a directory its entries in listing order. *)
Inductive remote : Type :=
| RFile (fetched : result string)
| RDir (entries : list (string * remote)).

(** The libraries and services the module calls. *)
Class Platform : Type := {
  (** [tomllib.load] on the content of a file; [None] is a decode error. *)
  load_toml : string -> option dict;
  (** [tomli_w.dump]: the text written for a document. *)
  dump_toml : dict -> string;
  (** [urllib.request.urlopen(url)] read to the end, or what it raises. *)
  urlopen : string -> result string;
  (** A shell command: its exit status and what it does to the files. *)
  run_shell : string -> gmap string string -> Z * gmap string string;
  (** [repr] of a value, as [print] shows it. *)
  repr : value -> string;
  (** The directory of the hub repository at a path, if there is one. *)
  hub : string -> option (list (string * remote))
}.

Section Cli.

Context {platform : Platform}.

(** [str(v)], as an f-string formats a value. *)
Definition py_str (v : value) : string :=
  match v with VStr s => s | _ => repr v end.

(** [subprocess.run(cmd, shell=True)]: the exit status is handed back in
    the returned object and nothing is raised for a non-zero one. *)
Definition subprocess_run (cmd : string) : M World Z :=
  fun w =>
    let (status, f) := run_shell cmd (files w) in
    (Ok status,
     mkWorld f (dirs w) (environ w) (stdout w) (shell w ++ [cmd])).

Definition parse_toml (content : string) : result dict :=
  match load_toml content with
  | Some d => Ok d
  | None => Err TOMLDecodeError
  end.

(** [PyProject.load]. *)
Definition load (p : string) : M World PyProject :=
  content <- read_file p ;;
  d <- lift (parse_toml content) ;;
  ret (mkPyProject d (Some p)).

(** [PyProject.from_url]: only an [HTTPError] is turned into the hint
    about the token, anything else is raised as it is. *)
Definition from_url (url : string) : M World PyProject :=
  match urlopen url with
  | Ok content =>
      d <- lift (parse_toml content) ;;
      ret (mkPyProject d None)
  | Err (HTTPError _) => raise (ValueError "Consider updating your GITHUB_TOKEN")
  | Err e => raise e
  end.

(** [PyProject.save]. *)
Definition save (self : PyProject) : M World unit :=
  match path self with
  | None =>
      raise (ValueError "Cannot save a PyProject that was not loaded from a file")
  | Some p => write_file p (dump_toml (data self))
  end.

(** [PyProject.get_langserve_export]; a missing field is [None] from
    [.get], which is the only way to get [None] out of a TOML table. *)
Definition get_langserve_export (self : PyProject) : M World value :=
  langserve <- lift (tool_langserve self) ;;
  module <- lift (py_get langserve "export_module" VNone) ;;
  match module with
  | VNone =>
      echo (repr (VDict (data self))) ;;
      raise (ValueError
               "No module name was exported at `tool.langserve.export_module`")
  | _ =>
      langserve <- lift (tool_langserve self) ;;
      attr <- lift (py_get langserve "export_attr" VNone) ;;
      match attr with
      | VNone =>
          raise (ValueError
                   "No attr name was exported at `tool.langserve.export_attr`")
      | _ => ret (VTuple [module; attr])
      end
  end.

Definition _load_pyproject : M World PyProject :=
  load "pyproject.toml".

(** [curr_data["tool"]] on a [PyProject]: the class defines no
    [__getitem__], so subscripting an instance raises. *)
Definition PyProject_getitem (self : PyProject) (k : string) : result value :=
  Err (TypeError "'PyProject' object is not subscriptable").

(** The [list] command. *)
Definition cmd_list : M World unit :=
  curr_data <- _load_pyproject ;;
  t <- lift (PyProject_getitem curr_data "tool") ;;
  langserve <- lift (py_get t "langserve" (VDict [])) ;;
  items <- lift (py_items langserve) ;;
  for_each items (fun kv => echo (fst kv +:+ " -> " +:+ py_str (snd kv))).

(** The [remove] command. *)
Definition cmd_remove (p : string) : M World unit :=
  curr_data <- _load_pyproject ;;
  r <- call (remove_langserve_path p) curr_data ;;
  save (snd r).

Definition startswith (s pre : string) : bool := String.prefix pre s.

Definition _package_to_poetry (package : string) : string :=
  if startswith package "." || startswith package "/" then package
  else "git+https://github.com/langchain-ai/langserve-hub.git#subdirectory="
       +:+ package.

(** [not os.environ.get("GITHUB_TOKEN")] holds for an unset variable and
    for one set to the empty string. *)
Definition _package_to_pyproject (env : gmap string string) (package : string)
  : string :=
  if startswith package "." || startswith package "/"
  then package +:+ "/pyproject.toml"
  else
    let tokenparam :=
      match env !! "GITHUB_TOKEN" with
      | None | Some "" => ""
      | Some token => "?token=" +:+ token
      end in
    "https://raw.githubusercontent.com/langchain-ai/langserve-hub/main/"
    +:+ package +:+ "/pyproject.toml" +:+ tokenparam.

(** The [add] command; [path or f"/{package}"] takes the default for a
    missing and for an empty argument. *)
Definition cmd_add (package : string) (path_arg : option string)
  : M World unit :=
  w <- get_state ;;
  let package_pyproject_url := _package_to_pyproject (environ w) package in
  package_pyproject <- from_url package_pyproject_url ;;
  compatible <- lift (is_langserve package_pyproject) ;;
  if negb compatible then
    raise (ValueError
             ("Package " +:+ package +:+
              " does not have a `tool.langserve` section in its pyproject.toml"))
  else
    let package_path := _package_to_poetry package in
    echo ("Adding " +:+ package) ;;
    _ <- subprocess_run ("poetry add " +:+ package_path) ;;
    let api_path :=
      match path_arg with
      | None | Some "" => "/" +:+ package
      | Some p => p
      end in
    pyproject <- _load_pyproject ;;
    export <- get_langserve_export package_pyproject ;;
    r <- call (add_langserve_path api_path export) pyproject ;;
    save (snd r).

(** Modelled from the spec: the loop over the entries of a remote
    directory in [download_github_path] (see [mirror]); each entry is
    mirrored at [localpath/name], in listing order, and the first failure
    ends the loop. *)
Definition mirror_entries
    (mirror_child : remote -> string -> M World unit) (localpath : string)
  : list (string * remote) -> M World unit :=
  fix each (es : list (string * remote)) : M World unit :=
    match es with
    | [] => ret tt
    | (name, child) :: rest =>
        mirror_child child (localpath +:+ "/" +:+ name) ;;
        each rest
    end.

(** Modelled from the spec: [download_github_path] of the module
    [langservehub/github.py], which [cli.py] imports and which is not
    among the sources.  A file is fetched and written to its local path;
    a directory is created and each of its entries is mirrored below it,
    in listing order, all of them before the directory is done; the first
    failed fetch ends the traversal and is raised. *)
Fixpoint mirror (node : remote) (localpath : string) : M World unit :=
  match node with
  | RFile fetched =>
      content <- lift fetched ;;
      write_file localpath content
  | RDir entries =>
      mkdir localpath ;;
      mirror_entries mirror localpath entries
  end.

(** Modelled from the spec: the entry point of the downloader; a remote
    path that does not exist is a [NotFoundError]. *)
Definition download_github_path (package localpath : string) : M World unit :=
  match hub package with
  | None => raise (NotFoundError package)
  | Some entries => mirror (RDir entries) localpath
  end.

(** The [download] command; [asyncio.run] raises what the coroutine
    raises. *)
Definition cmd_download (package localpath : string) : M World unit :=
  download_github_path package localpath ;;
  echo ("Successfully downloaded " +:+ package +:+ " to " +:+ localpath).

End Cli.

(** The first fetch that fails when a tree is walked in listing order. *)
Definition first_among (failure : remote -> option exn)
  : list (string * remote) -> option exn :=
  fix among (es : list (string * remote)) : option exn :=
    match es with
    | [] => None
    | (_, child) :: rest =>
        match failure child with
        | Some e => Some e
        | None => among rest
        end
    end.

Fixpoint first_failure (node : remote) : option exn :=
  match node with
  | RFile (Ok _) => None
  | RFile (Err e) => Some e
  | RDir entries => first_among first_failure entries
  end.

(** Induction on a remote tree, with the property available for every
    entry of a directory. *)
Section RemoteInduction.

Variable P : remote -> Prop.
Hypothesis P_file : forall fetched, P (RFile fetched).
Hypothesis P_dir :
  forall entries, Forall (fun entry => P (snd entry)) entries -> P (RDir entries).

Fixpoint remote_tree_ind (node : remote) : P node :=
  match node with
  | RFile fetched => P_file fetched
  | RDir entries =>
      P_dir entries
        ((fix each (l : list (string * remote))
            : Forall (fun entry => P (snd entry)) l :=
            match l with
            | [] => @List.Forall_nil _ _
            | entry :: rest =>
                @List.Forall_cons _ _ entry rest
                  (match entry as e return P (snd e) with
                   | (_, child) => remote_tree_ind child
                   end)
                  (each rest)
            end) entries)
  end.

End RemoteInduction.

(** The fixed texts of the module: the messages of its errors and the
    address its manifests are fetched from. *)
Definition incompatible (package : string) : exn :=
  ValueError
    ("Package " +:+ package +:+
     " does not have a `tool.langserve` section in its pyproject.toml").

Definition no_module : string :=
  "No module name was exported at `tool.langserve.export_module`".

Definition no_attr : string :=
  "No attr name was exported at `tool.langserve.export_attr`".

Definition cannot_save : exn :=
  ValueError "Cannot save a PyProject that was not loaded from a file".

Definition raw_base : string :=
  "https://raw.githubusercontent.com/langchain-ai/langserve-hub/main/".

Definition downloaded (package localpath : string) : string :=
  "Successfully downloaded " +:+ package +:+ " to " +:+ localpath.

(** How mirroring a tree ends. *)
Definition outcome (node : remote) : result unit :=
  match first_failure node with
  | Some e => Err e
  | None => Ok tt
  end.

(** ** A concrete platform

    A small hub and project on which the commands can be run: a parser that
    knows the manifests below, a printer for documents, an installer that
    exits with status 1 and touches nothing, and two remote trees. *)
Module Demo.

Definition pirate_toml : string :=
  "[tool.poetry]
name = 'pirate'
[tool.langserve]
export_module = 'pirate.chain'
export_attr = 'chain'
".

Definition pirate_doc : dict :=
  [("tool", VDict [("poetry", VDict [("name", VStr "pirate")]);
                   ("langserve", VDict [("export_module", VStr "pirate.chain");
                                        ("export_attr", VStr "chain")])])].

Definition plain_toml : string :=
  "[tool.poetry]
name = 'plain'
".

Definition plain_doc : dict :=
  [("tool", VDict [("poetry", VDict [("name", VStr "plain")])])].

Definition bare_toml : string :=
  "[project]
name = 'bare'
".

Definition bare_doc : dict :=
  [("project", VDict [("name", VStr "bare")])].

Definition app_toml : string :=
  "[tool.poetry]
name = 'app'
[tool.langserve.paths]
'/old' = ['old.chain', 'chain']
".

Definition app_doc : dict :=
  [("tool", VDict [("poetry", VDict [("name", VStr "app")]);
                   ("langserve",
                    VDict [("paths",
                            VDict [("/old", VList [VStr "old.chain";
                                                   VStr "chain"])])])])].

Definition manifests : list (string * dict) :=
  [(pirate_toml, pirate_doc); (plain_toml, plain_doc);
   (bare_toml, bare_doc); (app_toml, app_doc)].

Fixpoint lookup_text {A} (table : list (string * A)) (text : string)
  : option A :=
  match table with
  | [] => None
  | (t, a) :: rest => if String.eqb t text then Some a else lookup_text rest text
  end.

Definition join (sep : string) (parts : list string) : string :=
  match parts with
  | [] => ""
  | first :: rest => fold_left (fun acc s => acc +:+ sep +:+ s) rest first
  end.

(** Documents printed with inline tables and arrays. *)
Fixpoint show (v : value) : string :=
  match v with
  | VNone => "None"
  | VStr s => "'" +:+ s +:+ "'"
  | VInt z => pretty z
  | VBool true => "true"
  | VBool false => "false"
  | VFloat r => r
  | VDate _ r => r
  | VList l | VTuple l => "[" +:+ join ", " (map show l) +:+ "]"
  | VDict d =>
      "{" +:+ join ", " (map (fun kv => "'" +:+ fst kv +:+ "' = " +:+ show (snd kv)) d)
      +:+ "}"
  end.

Definition raw : string :=
  "https://raw.githubusercontent.com/langchain-ai/langserve-hub/main/".

Definition remote_files : list (string * string) :=
  [(raw +:+ "simple/pirate/pyproject.toml", pirate_toml);
   (raw +:+ "simple/plain/pyproject.toml", plain_toml);
   (raw +:+ "simple/bare/pyproject.toml", bare_toml)].

Definition tree_ok : list (string * remote) :=
  [("a.txt", RFile (Ok "alpha"));
   ("sub", RDir [("b.txt", RFile (Ok "beta"))])].

Definition tree_broken : list (string * remote) :=
  [("a.txt", RFile (Ok "alpha"));
   ("sub", RDir [("b.txt", RFile (Err (HTTPError 500)))])].

Definition platform : Platform := {|
  load_toml := lookup_text manifests;
  dump_toml := fun d =>
    String.concat "" (map (fun kv => fst kv +:+ " = " +:+ show (snd kv) +:+ "
") d);
  urlopen := fun url =>
    match lookup_text remote_files url with
    | Some text => Ok text
    | None => Err (HTTPError 404)
    end;
  run_shell := fun _ fs => (1%Z, fs);
  repr := show;
  hub := lookup_text [("simple/pirate", tree_ok); ("simple/broken", tree_broken)]
|}.

(** A project directory holding the manifest [app_toml]. *)
Definition world : World :=
  mkWorld {[ "pyproject.toml" := app_toml ]} ∅ ∅ [] [].

Definition app : PyProject := mkPyProject app_doc (Some "pyproject.toml").

Definition bare : PyProject := mkPyProject bare_doc None.

Definition pirate : PyProject := mkPyProject pirate_doc None.

Definition old_mounts : dict :=
  [("/old", VList [VStr "old.chain"; VStr "chain"])].

Definition token_env : gmap string string := {[ "GITHUB_TOKEN" := "s3cret" ]}.

End Demo.

(** The hint [from_url] gives for an HTTP error, the address source
    locations start with, and the test both resolvers make on an
    identifier. *)
Definition token_hint : exn := ValueError "Consider updating your GITHUB_TOKEN".

Definition git_base : string :=
  "git+https://github.com/langchain-ai/langserve-hub.git#subdirectory=".

Definition is_local (package : string) : bool :=
  startswith package "." || startswith package "/".

(** ** The [serve] command *)

(** The keys of a Python dictionary are distinct. *)
Definition unique_keys (d : dict) : Prop := NoDup (map fst d).

(** A byte that continues a UTF-8 sequence: [10xxxxxx]. *)
Definition is_continuation (c : ascii) : bool :=
  Nat.leb 128 (nat_of_ascii c) && Nat.ltb (nat_of_ascii c) 192.

(** The continuation bytes a string starts with, and the characters that
    follow them, each with its continuation bytes. *)
Fixpoint utf8_split (s : string) : string * list string :=
  match s with
  | EmptyString => (EmptyString, [])
  | String c rest =>
      let (continuation, chars) := utf8_split rest in
      if is_continuation c then (String c continuation, chars)
      else (EmptyString, String c continuation :: chars)
  end.

(** The characters of a [str], one string per code point. *)
Definition py_chars (s : string) : list string :=
  match utf8_split s with
  | (EmptyString, chars) => chars
  | (stray, chars) => stray :: chars
  end.

(** The values that iterating over [v] yields: the items of a list or
    tuple, the characters of a string, the keys of a dictionary. *)
Definition py_iter (v : value) : result (list value) :=
  match v with
  | VList l | VTuple l => Ok l
  | VStr s => Ok (map VStr (py_chars s))
  | VDict d => Ok (map (fun kv => VStr (fst kv)) d)
  | _ => Err (TypeError
                ("cannot unpack non-iterable " +:+ type_name v +:+ " object"))
  end.

(** [a, b = v]. *)
Definition py_unpack2 (v : value) : result (value * value) :=
  match py_iter v with
  | Ok [a; b] => Ok (a, b)
  | Ok (_ :: _ :: _ :: _) =>
      Err (ValueError "too many values to unpack (expected 2)")
  | Ok l =>
      Err (ValueError ("not enough values to unpack (expected 2, got "
                       +:+ pretty (length l) +:+ ")"))
  | Err e => Err e
  end.

(** What [serve] needs besides the platform: the import system and the
    web framework.  An [app] is a [FastAPI] application, [add_routes]
    gives the application with the routes of a chain added at a path. *)
Class Runtime : Type := {
  py_module : Type;
  py_object : Type;
  app : Type;
  (** [__import__(name)] for a string [name]. *)
  import_module : string -> result py_module;
  (** [getattr(mod, name)] for a string [name]. *)
  getattr : py_module -> string -> result py_object;
  (** [FastAPI()]. *)
  FastAPI : app;
  (** [add_routes(fastapp, chain, path=k)]. *)
  add_routes : app -> py_object -> string -> result app
}.

Section Serve.

Context {platform : Platform} {runtime : Runtime}.

(** [__import__(module)]: the name has to be a string. *)
Definition py_import (module : value) : result py_module :=
  match module with
  | VStr name => import_module name
  | _ => Err (TypeError "module name must be a string")
  end.

(** [getattr(mod, attr)]: the name has to be a string. *)
Definition py_getattr (imported : py_module) (attr : value) : result py_object :=
  match attr with
  | VStr name => getattr imported name
  | _ => Err (TypeError ("attribute name must be string, not '"
                         +:+ type_name attr +:+ "'"))
  end.

(** The body of the loop of [serve] for the mount [k -> v]. *)
Definition mount_route (fastapp : app) (k : string) (v : value) : result app :=
  match py_unpack2 v with
  | Ok (module, attr) =>
      match py_import module with
      | Ok imported =>
          match py_getattr imported attr with
          | Ok chain => add_routes fastapp chain k
          | Err e => Err e
          end
      | Err e => Err e
      end
  | Err e => Err e
  end.

(** The loop of [serve] over the items of the mount table. *)
Fixpoint mount_routes (items : list (string * value)) (fastapp : app)
  : result app :=
  match items with
  | [] => Ok fastapp
  | (k, v) :: rest =>
      match mount_route fastapp k v with
      | Ok fastapp' => mount_routes rest fastapp'
      | Err e => Err e
      end
  end.

(** The [serve] command, up to the call of [uvicorn.run]: the result is
    the application handed to the server.  The imports of [fastapi],
    [uvicorn] and [langserve] inside the function are taken to succeed. *)
Definition cmd_serve : M World app :=
  echo "Validating dependencies and installing missing ones" ;;
  _ <- subprocess_run "poetry install" ;;
  echo "Successfully installed missing dependencies" ;;
  curr_data <- _load_pyproject ;;
  paths <- lift (get_langserve_paths curr_data) ;;
  items <- lift (py_items paths) ;;
  fastapp <- lift (mount_routes items FastAPI) ;;
  echo "Check out the docs at http://localhost:8000/docs" ;;
  ret fastapp.

End Serve.

(** A runtime whose modules are named by strings, whose only module is
    [old] with the attribute [chain], and whose application is the list of
    the routes added so far; and a platform whose parser reads back what
    its printer writes for the project of [Demo]. *)
Module DemoServe.

Definition runtime : Runtime := {|
  py_module := string;
  py_object := string;
  app := list (string * string);
  import_module := fun name =>
    if String.eqb name "old" then Ok name
    else Err (OtherError ("No module named '" +:+ name +:+ "'"));
  getattr := fun imported name =>
    if String.eqb name "chain" then Ok (imported +:+ "." +:+ name)
    else Err (AttributeError "module has no such attribute");
  FastAPI := [];
  add_routes := fun fastapp chain k => Ok (fastapp ++ [(k, chain)])
|}.

Definition old_doc : dict :=
  [("tool", VDict [("langserve",
                    VDict [("paths",
                            VDict [("/old", VList [VStr "old"; VStr "chain"])])])])].

Definition old_toml : string := dump_toml (Platform := Demo.platform) old_doc.

Definition rest_doc : dict :=
  [("tool", VDict [("langserve", VDict [("paths", VDict [])])])].

Definition rest_toml : string := dump_toml (Platform := Demo.platform) rest_doc.

(** A project with a mount that is not a pair. *)
Definition bad_doc : dict :=
  [("tool", VDict [("langserve",
                    VDict [("paths",
                            VDict [("/bad", VList [VStr "old"])])])])].

Definition bad_toml : string := dump_toml (Platform := Demo.platform) bad_doc.

(** A package with a [langserve] section that declares no export. *)
Definition noexport_doc : dict :=
  [("tool", VDict [("langserve", VDict [])])].

Definition noexport_toml : string :=
  dump_toml (Platform := Demo.platform) noexport_doc.

Definition platform : Platform := {|
  load_toml := fun text =>
    match Demo.lookup_text
            [(old_toml, old_doc); (rest_toml, rest_doc); (bad_toml, bad_doc);
             (noexport_toml, noexport_doc)] text with
    | Some d => Some d
    | None => load_toml (Platform := Demo.platform) text
    end;
  dump_toml := dump_toml (Platform := Demo.platform);
  urlopen := fun url =>
    if String.eqb url (raw_base +:+ "simple/noexport/pyproject.toml")
    then Ok noexport_toml
    else urlopen (Platform := Demo.platform) url;
  run_shell := fun _ fs => (2%Z, fs);
  repr := repr (Platform := Demo.platform);
  hub := hub (Platform := Demo.platform)
|}.

Definition world : World :=
  mkWorld {[ "pyproject.toml" := old_toml ]} ∅ ∅ [] [].

Definition old : PyProject := mkPyProject old_doc (Some "pyproject.toml").

Definition world_of (text : string) : World :=
  mkWorld {[ "pyproject.toml" := text ]} ∅ ∅ [] [].

Definition empty_world : World := mkWorld ∅ ∅ ∅ [] [].

End DemoServe.

(** ** The shape of the mutators *)

(** Both mutators read the table, change it, and write it back. *)
Definition update_paths (change : value -> result value) : M PyProject unit :=
  self <- get_state ;;
  paths <- lift (_get_langserve_path_dict self) ;;
  paths <- lift (change paths) ;;
  _set_langserve_path_dict paths.

(** ** The primitives on small inputs *)

Example dict_set_keeps_position :
  dict_set [("a", VInt 1); ("b", VInt 2)] "a" (VInt 3)
  = [("a", VInt 3); ("b", VInt 2)].
Proof. reflexivity. Qed.

Example dict_set_appends :
  dict_set [("a", VInt 1)] "b" (VInt 2) = [("a", VInt 1); ("b", VInt 2)].
Proof. reflexivity. Qed.

Example contains_is_substring_on_str :
  py_contains "langserve" (VStr "my-langserve-app") = Ok true.
Proof. reflexivity. Qed.

Example contains_raises_on_int :
  py_contains "langserve" (VInt 1)
  = Err (TypeError "argument of type 'int' is not iterable").
Proof. reflexivity. Qed.

Example package_to_poetry_hub :
  _package_to_poetry "simple/pirate"
  = "git+https://github.com/langchain-ai/langserve-hub.git#subdirectory=simple/pirate".
Proof. reflexivity. Qed.

Example package_to_poetry_local : _package_to_poetry "/abs/pkg" = "/abs/pkg".
Proof. reflexivity. Qed.

Example remove_mounted_path :
  fst (remove_langserve_path "/old" Demo.app) = Ok tt /\
  get_langserve_paths (snd (remove_langserve_path "/old" Demo.app))
  = Ok (VDict []).
Proof. split; reflexivity. Qed.

(** ** Dictionaries *)

Lemma dict_get_set_eq (d : dict) (k : string) (v : value) :
  dict_get (dict_set d k v) k = Some v.
Proof.
  induction d as [|[k' v'] rest IH]; simpl.
  - now rewrite String.eqb_refl.
  - destruct (String.eqb k' k) eqn:E; simpl.
    + now rewrite String.eqb_refl.
    + now rewrite E.
Qed.

Lemma dict_get_set_ne (d : dict) (k q : string) (v : value) :
  q <> k -> dict_get (dict_set d k v) q = dict_get d q.
Proof.
  intros Hne. induction d as [|[k' v'] rest IH]; simpl.
  - destruct (String.eqb k q) eqn:E; [|reflexivity].
    apply String.eqb_eq in E. congruence.
  - destruct (String.eqb k' k) eqn:E; simpl.
    + apply String.eqb_eq in E. subst k'.
      destruct (String.eqb k q) eqn:E'; [|reflexivity].
      apply String.eqb_eq in E'. congruence.
    + now rewrite IH.
Qed.

Lemma dict_set_length_present (d : dict) (k : string) (v x : value) :
  dict_get d k = Some x -> length (dict_set d k v) = length d.
Proof.
  induction d as [|[k' v'] rest IH]; simpl; [discriminate|].
  destruct (String.eqb k' k); simpl; [reflexivity|].
  intros H. now rewrite IH.
Qed.

Lemma dict_set_length_absent (d : dict) (k : string) (v : value) :
  dict_get d k = None -> length (dict_set d k v) = S (length d).
Proof.
  induction d as [|[k' v'] rest IH]; simpl; [reflexivity|].
  destruct (String.eqb k' k); simpl; [discriminate|].
  intros H. now rewrite IH.
Qed.

(** ** The mount table of a document *)

(** A document whose mount table can be read has a ["tool"] table, and
    below it either no ["langserve"] entry or one that is a table. *)
Lemma path_dict_shape (self : PyProject) (pv : value) :
  _get_langserve_path_dict self = Ok pv ->
  exists tl ls,
    dict_get (data self) "tool" = Some (VDict tl) /\
    tool_langserve self = Ok (VDict ls) /\
    py_get (VDict ls) "paths" (VDict []) = Ok pv.
Proof.
  unfold _get_langserve_path_dict, tool_langserve, tool, py_getitem.
  destruct (dict_get (data self) "tool") as [tv|] eqn:Ht; [|discriminate].
  destruct tv as [| | | | | | | |tl]; simpl; try discriminate.
  destruct (dict_get tl "langserve") as [lv|] eqn:Hl.
  - destruct lv as [| | | | | | | |ls]; simpl; try discriminate.
    intros H. exists tl, ls. repeat split; assumption.
  - intros H. exists tl, []. repeat split; assumption.
Qed.

Lemma set_path_dict_ok (self : PyProject) (tl ls : dict) (pd : value) :
  dict_get (data self) "tool" = Some (VDict tl) ->
  tool_langserve self = Ok (VDict ls) ->
  _set_langserve_path_dict pd self =
    (Ok tt,
     mkPyProject
       (dict_set (data self) "tool"
          (VDict (dict_set tl "langserve" (VDict (dict_set ls "paths" pd)))))
       (path self)).
Proof.
  intros Ht Hl.
  unfold _set_langserve_path_dict, bind, get_state, lift, put_state.
  rewrite Hl. simpl. unfold tool, py_getitem. rewrite Ht. reflexivity.
Qed.

Lemma get_after_set (d tl ls : dict) (pd : value) (p : option string) :
  _get_langserve_path_dict
    (mkPyProject
       (dict_set d "tool"
          (VDict (dict_set tl "langserve" (VDict (dict_set ls "paths" pd))))) p)
  = Ok pd.
Proof.
  unfold _get_langserve_path_dict, tool_langserve, tool, py_getitem. simpl data.
  rewrite dict_get_set_eq. simpl. rewrite dict_get_set_eq. simpl.
  now rewrite dict_get_set_eq.
Qed.

(** Mounting on a document with a readable mount table succeeds and the
    table read back is the old one with the entry set. *)
Lemma add_langserve_path_ok (self : PyProject) (t : dict) (p : string) (e : value) :
  get_langserve_paths self = Ok (VDict t) ->
  exists self',
    add_langserve_path p e self = (Ok tt, self') /\
    get_langserve_paths self' = Ok (VDict (dict_set t p e)) /\
    path self' = path self.
Proof.
  unfold get_langserve_paths. intros H.
  destruct (path_dict_shape _ _ H) as (tl & ls & Ht & Hl & _).
  eexists. split; [|split].
  - unfold add_langserve_path, bind, get_state, lift. rewrite H. simpl.
    apply (set_path_dict_ok self tl ls _ Ht Hl).
  - apply get_after_set.
  - reflexivity.
Qed.

Section Properties.

Context {platform : Platform}.

(** C5, amended. [add_langserve_path] is an upsert where the last write wins: on a
    document whose mount table [t] can be listed, mounting [p -> e1] and
    then [p -> e2] both succeed; after each call the listed table maps [p]
    to the entry just given; the second call leaves the size of the table
    and every other path as they were, and so does the first when [p] was
    already mounted. *)
Theorem add_langserve_path_upsert
    (self : PyProject) (t : dict) (p : string) (e1 e2 : value) :
  get_langserve_paths self = Ok (VDict t) ->
  exists self1 self2 t1 t2,
    add_langserve_path p e1 self = (Ok tt, self1) /\
    get_langserve_paths self1 = Ok (VDict t1) /\
    dict_get t1 p = Some e1 /\
    (dict_mem t p = true -> length t1 = length t) /\
    (dict_mem t p = false -> length t1 = S (length t)) /\
    add_langserve_path p e2 self1 = (Ok tt, self2) /\
    get_langserve_paths self2 = Ok (VDict t2) /\
    dict_get t2 p = Some e2 /\
    length t2 = length t1 /\
    (forall q, q <> p -> dict_get t2 q = dict_get t q).
Proof.
  intros H.
  destruct (add_langserve_path_ok self t p e1 H) as (self1 & A1 & G1 & _).
  destruct (add_langserve_path_ok self1 _ p e2 G1) as (self2 & A2 & G2 & _).
  exists self1, self2, (dict_set t p e1), (dict_set (dict_set t p e1) p e2).
  repeat split; try assumption.
  - apply dict_get_set_eq.
  - unfold dict_mem. destruct (dict_get t p) eqn:E; [|discriminate].
    intros _. eapply dict_set_length_present; eassumption.
  - unfold dict_mem. destruct (dict_get t p) eqn:E; [discriminate|].
    intros _. now apply dict_set_length_absent.
  - apply dict_get_set_eq.
  - eapply dict_set_length_present. apply dict_get_set_eq.
  - intros q Hq. now rewrite !dict_get_set_ne.
Qed.

(** C6. Removing a path that is not in the mount table of a document
    raises [KeyError] for that path and leaves the document, and so its
    mount table, as it was. *)
Theorem remove_langserve_path_absent
    (self : PyProject) (t : dict) (p : string) :
  get_langserve_paths self = Ok (VDict t) ->
  dict_get t p = None ->
  remove_langserve_path p self = (Err (KeyError p), self) /\
  get_langserve_paths self = Ok (VDict t).
Proof.
  intros H Hp. split; [|assumption].
  unfold get_langserve_paths in H.
  unfold remove_langserve_path, bind, get_state, lift.
  rewrite H. simpl. now rewrite Hp.
Qed.

(** C10. On a document with no top-level ["tool"] entry, [is_langserve],
    [add_langserve_path], [remove_langserve_path] and
    [get_langserve_paths] all raise [KeyError] for ["tool"], the mutators
    leaving the document as it was; and when the manifest fetched for a
    package is such a document, [add] fails with that [KeyError], not with
    the message about a missing section, and changes nothing. *)
Theorem no_tool_table_is_a_lookup_failure
    (self : PyProject) (p : string) (e : value) :
  dict_get (data self) "tool" = None ->
  is_langserve self = Err (KeyError "tool") /\
  add_langserve_path p e self = (Err (KeyError "tool"), self) /\
  remove_langserve_path p self = (Err (KeyError "tool"), self) /\
  get_langserve_paths self = Err (KeyError "tool") /\
  (forall (package content : string) (path_arg : option string) (w : World),
      urlopen (_package_to_pyproject (environ w) package) = Ok content ->
      load_toml content = Some (data self) ->
      cmd_add package path_arg w = (Err (KeyError "tool"), w)).
Proof.
  intros H.
  assert (G : _get_langserve_path_dict self = Err (KeyError "tool")).
  { unfold _get_langserve_path_dict, tool_langserve, tool, py_getitem.
    now rewrite H. }
  repeat split.
  - unfold is_langserve, tool, py_getitem. now rewrite H.
  - unfold add_langserve_path, bind, get_state, lift. now rewrite G.
  - unfold remove_langserve_path, bind, get_state, lift. now rewrite G.
  - exact G.
  - intros package content path_arg w Hu Hl.
    unfold cmd_add, bind, get_state, from_url, lift, parse_toml, ret.
    rewrite Hu. simpl. rewrite Hl. simpl.
    unfold is_langserve, tool, py_getitem. simpl. now rewrite H.
Qed.

(** ** The registration workflow *)

(** What [add] does once the manifest of the package has been fetched
    and parsed: nothing but the compatibility check, unless it passes. *)
Lemma cmd_add_checks_first
    (package content : string) (path_arg : option string) (w : World)
    (d : dict) :
  urlopen (_package_to_pyproject (environ w) package) = Ok content ->
  load_toml content = Some d ->
  match is_langserve (mkPyProject d None) with
  | Ok true => True
  | Ok false => cmd_add package path_arg w = (Err (incompatible package), w)
  | Err e => cmd_add package path_arg w = (Err e, w)
  end.
Proof.
  intros Hu Hl.
  unfold cmd_add, bind, get_state, from_url, lift, parse_toml, ret.
  rewrite Hu. simpl. rewrite Hl. simpl.
  destruct (is_langserve (mkPyProject d None)) as [[|]|e]; simpl;
    [exact I|reflexivity|reflexivity].
Qed.

(** C1, amended. When the manifest fetched for a package has a ["tool"]
    table with no ["langserve"] entry, or more generally when
    [is_langserve] answers [False] on it, [add] fails with the error about
    the missing [tool.langserve] section; when the manifest has no
    ["tool"] entry the failure is the [KeyError] of the lookup.  Whenever
    [is_langserve] does not answer [True], [add] fails and the world is
    left as it was: no shell command was run, no file was written (the
    local manifest need not even exist), nothing was printed. *)
Theorem add_rejects_before_any_effect
    (package content : string) (path_arg : option string) (w : World)
    (d : dict) :
  urlopen (_package_to_pyproject (environ w) package) = Ok content ->
  load_toml content = Some d ->
  (forall tl, dict_get d "tool" = Some (VDict tl) ->
              dict_get tl "langserve" = None ->
              cmd_add package path_arg w = (Err (incompatible package), w)) /\
  (is_langserve (mkPyProject d None) = Ok false ->
   cmd_add package path_arg w = (Err (incompatible package), w)) /\
  (dict_get d "tool" = None ->
   cmd_add package path_arg w = (Err (KeyError "tool"), w)) /\
  (is_langserve (mkPyProject d None) <> Ok true ->
   exists e, cmd_add package path_arg w = (Err e, w)).
Proof.
  intros Hu Hl.
  pose proof (cmd_add_checks_first package content path_arg w d Hu Hl) as H.
  repeat split.
  - intros tl Ht Hn.
    assert (E : is_langserve (mkPyProject d None) = Ok false).
    { unfold is_langserve, tool, py_getitem. simpl. rewrite Ht. simpl.
      unfold dict_mem. now rewrite Hn. }
    now rewrite E in H.
  - intros E. now rewrite E in H.
  - intros Ht.
    assert (E : is_langserve (mkPyProject d None) = Err (KeyError "tool")).
    { unfold is_langserve, tool, py_getitem. simpl. now rewrite Ht. }
    now rewrite E in H.
  - intros Hne.
    destruct (is_langserve (mkPyProject d None)) as [[|]|e]; eauto.
    congruence.
Qed.

(** C3, amended.  The exit status of the installer is not looked at.
    When the package is compatible and declares its export, and the local
    manifest as the installer leaves it can be read and has a mount table,
    [add] mounts the package, saves the manifest and succeeds, for every
    exit [status] of [poetry add]. *)
Theorem add_goes_on_whatever_the_installer_status
    (package content local_text : string) (path_arg : option string)
    (w : World) (remote_doc local_doc ls t : dict) (module attr : value)
    (status : Z) (installed : gmap string string) :
  urlopen (_package_to_pyproject (environ w) package) = Ok content ->
  load_toml content = Some remote_doc ->
  is_langserve (mkPyProject remote_doc None) = Ok true ->
  tool_langserve (mkPyProject remote_doc None) = Ok (VDict ls) ->
  dict_get ls "export_module" = Some module -> module <> VNone ->
  dict_get ls "export_attr" = Some attr -> attr <> VNone ->
  run_shell ("poetry add " +:+ _package_to_poetry package) (files w)
    = (status, installed) ->
  installed !! "pyproject.toml" = Some local_text ->
  load_toml local_text = Some local_doc ->
  get_langserve_paths (mkPyProject local_doc (Some "pyproject.toml"))
    = Ok (VDict t) ->
  exists saved,
    add_langserve_path
      (match path_arg with None | Some "" => "/" +:+ package | Some p => p end)
      (VTuple [module; attr])
      (mkPyProject local_doc (Some "pyproject.toml")) = (Ok tt, saved) /\
    cmd_add package path_arg w =
      (Ok tt,
       mkWorld (<["pyproject.toml" := dump_toml (data saved)]> installed)
               (dirs w) (environ w)
               (stdout w ++ ["Adding " +:+ package])
               (shell w ++ ["poetry add " +:+ _package_to_poetry package])).
Proof.
  intros Hu Hl Hc Hls Hm Hmn Ha Han Hrun Hfile Hlocal Ht.
  destruct (add_langserve_path_ok _ t
              (match path_arg with None | Some "" => "/" +:+ package | Some p => p end)
              (VTuple [module; attr]) Ht) as (saved & Hadd & _ & Hpath).
  exists saved. split; [exact Hadd|].
  unfold cmd_add, bind, get_state, from_url, lift, parse_toml, ret.
  rewrite Hu. simpl. rewrite Hl. simpl. rewrite Hc. simpl.
  unfold subprocess_run. simpl. rewrite Hrun.
  unfold _load_pyproject, load, bind, read_file, lift, parse_toml, ret.
  simpl. rewrite Hfile, Hlocal.
  unfold get_langserve_export, bind, lift. rewrite Hls.
  unfold py_get. rewrite Hm.
  assert (Hexp : forall (A : Type) (x y : A),
             match module with VNone => x | _ => y end = y)
    by (intros; destruct module; congruence).
  rewrite Hexp. rewrite Ha.
  assert (Hexp' : forall (A : Type) (x y : A),
             match attr with VNone => x | _ => y end = y)
    by (intros; destruct attr; congruence).
  rewrite Hexp'. unfold ret, call. rewrite Hadd. simpl.
  unfold save. rewrite Hpath. reflexivity.
Qed.

(** ** The [list] command *)

(** [list] never gets past the subscript on the loaded document: it
    raises, for a manifest that cannot be loaded and for one that can,
    and prints nothing. *)
Lemma cmd_list_raises (w : World) :
  exists e, cmd_list w = (Err e, w).
Proof.
  unfold cmd_list, bind, _load_pyproject, load, bind, read_file, lift,
    parse_toml, ret.
  destruct (files w !! "pyproject.toml") as [content|]; [|eauto].
  destruct (load_toml content); simpl; eauto.
Qed.

Lemma cmd_list_loaded (w : World) (content : string) (d : dict) :
  files w !! "pyproject.toml" = Some content ->
  load_toml content = Some d ->
  cmd_list w = (Err (TypeError "'PyProject' object is not subscriptable"), w).
Proof.
  intros Hf Hl.
  unfold cmd_list, bind, _load_pyproject, load, bind, read_file, lift,
    parse_toml, ret.
  now rewrite Hf, Hl.
Qed.

(** ** The identifier resolver *)

Lemma startswith_char (c : ascii) (s : string) :
  startswith s (String c EmptyString) = true <->
  exists rest, s = String c rest.
Proof.
  unfold startswith. destruct s as [|c' rest]; simpl.
  - split; [discriminate|]. intros [r Hr]. discriminate.
  - destruct (Ascii.ascii_dec c c') as [->|Hne].
    + split; eauto. intros _. now destruct rest.
    + split; [discriminate|]. intros [r Hr]. congruence.
Qed.

(** C4. [_package_to_pyproject] sends an identifier that starts with [.]
    or [/] to the identifier followed by [/pyproject.toml], and any other
    identifier to the raw-content address of the hub followed by the
    identifier and [/pyproject.toml]; that address is followed by
    [?token=] and the token when [GITHUB_TOKEN] is set to a non-empty
    string, and by nothing when the variable is unset or empty. *)
Theorem package_to_pyproject_location
    (env : gmap string string) (package : string) :
  ((exists rest, package = "." +:+ rest \/ package = "/" +:+ rest) ->
   _package_to_pyproject env package = package +:+ "/pyproject.toml") /\
  (~ (exists rest, package = "." +:+ rest \/ package = "/" +:+ rest) ->
   (forall token, env !! "GITHUB_TOKEN" = Some token -> token <> "" ->
      _package_to_pyproject env package =
        raw_base +:+ package +:+ "/pyproject.toml" +:+ "?token=" +:+ token) /\
   (env !! "GITHUB_TOKEN" = None \/ env !! "GITHUB_TOKEN" = Some "" ->
      _package_to_pyproject env package =
        raw_base +:+ package +:+ "/pyproject.toml")).
Proof.
  assert (Hloc : startswith package "." || startswith package "/" = true <->
                 exists rest, package = "." +:+ rest \/ package = "/" +:+ rest).
  { rewrite orb_true_iff, !startswith_char. split.
    - intros [[r Hr]|[r Hr]]; exists r; [left|right]; exact Hr.
    - intros [r [Hr|Hr]]; [left|right]; exists r; exact Hr. }
  unfold _package_to_pyproject. split.
  - intros H. apply Hloc in H. now rewrite H.
  - intros H.
    destruct (startswith package "." || startswith package "/") eqn:E.
    + exfalso. apply H, Hloc. reflexivity.
    + split.
      * intros token Ht Hne. rewrite Ht.
        destruct token; [congruence|reflexivity].
      * intros [Ht|Ht]; rewrite Ht; simpl.
        -- reflexivity.
        -- reflexivity.
Qed.

(** ** The export declaration *)

(** C7, amended. On a document whose [tool.langserve] lookup gives the table [ls]
    (the section itself, or the empty default when there is none),
    [get_langserve_export] raises the error that names [export_module]
    and not [export_attr] when [export_module] is missing, the error that
    names [export_attr] and not [export_module] when only [export_attr]
    is missing, and returns the pair of the two when both are there. *)
Theorem get_langserve_export_names_the_missing_field
    (self : PyProject) (ls : dict) (w : World) :
  tool_langserve self = Ok (VDict ls) ->
  (dict_get ls "export_module" = None ->
   get_langserve_export self w =
     (Err (ValueError no_module),
      mkWorld (files w) (dirs w) (environ w)
              (stdout w ++ [repr (VDict (data self))]) (shell w))) /\
  (forall module, dict_get ls "export_module" = Some module ->
     module <> VNone -> dict_get ls "export_attr" = None ->
     get_langserve_export self w = (Err (ValueError no_attr), w)) /\
  (forall module attr, dict_get ls "export_module" = Some module ->
     module <> VNone -> dict_get ls "export_attr" = Some attr ->
     attr <> VNone ->
     get_langserve_export self w = (Ok (VTuple [module; attr]), w)) /\
  (str_contains "export_module" no_module = true /\
   str_contains "export_attr" no_module = false /\
   str_contains "export_attr" no_attr = true /\
   str_contains "export_module" no_attr = false).
Proof.
  intros H. unfold get_langserve_export, bind, lift. rewrite H.
  unfold py_get. repeat split.
  - intros Hm. now rewrite Hm.
  - intros module Hm Hn Ha. rewrite Hm.
    destruct module; try congruence; now rewrite Ha.
  - intros module attr Hm Hn Ha Han. rewrite Hm.
    destruct module; try congruence; rewrite Ha;
      destruct attr; try congruence; reflexivity.
Qed.

(** ** Saving *)

(** C8. A document made by [from_url] has no path, and [save] on a
    document without a path raises and leaves every file as it was; a
    document made by [load] carries the path it was read from, and [save]
    on a document with a path writes the text of its data to that path. *)
Theorem save_needs_a_path (self : PyProject) (w : World) :
  (path self = None -> save self w = (Err cannot_save, w)) /\
  (forall p, path self = Some p ->
     save self w =
       (Ok tt, with_files (<[p := dump_toml (data self)]> (files w)) w)) /\
  (forall url w0 w1, from_url url w0 = (Ok self, w1) ->
     save self w = (Err cannot_save, w)) /\
  (forall p w0 w1, load p w0 = (Ok self, w1) ->
     save self w =
       (Ok tt, with_files (<[p := dump_toml (data self)]> (files w)) w)).
Proof.
  assert (A : path self = None -> save self w = (Err cannot_save, w)).
  { intros H. unfold save. now rewrite H. }
  assert (B : forall p, path self = Some p ->
              save self w =
                (Ok tt, with_files (<[p := dump_toml (data self)]> (files w)) w)).
  { intros p H. unfold save. now rewrite H. }
  repeat split; try assumption.
  - intros url w0 w1 H. apply A.
    unfold from_url, bind, lift, parse_toml, ret, raise in H.
    destruct (urlopen url) as [content|e].
    + destruct (load_toml content); simpl in H; [|discriminate].
      now inversion H.
    + destruct e; discriminate.
  - intros p w0 w1 H. apply B.
    unfold load, bind, read_file, lift, parse_toml, ret in H.
    destruct (files w0 !! p) as [content|]; [|discriminate].
    destruct (load_toml content); simpl in H; [|discriminate].
    now inversion H.
Qed.

(** ** The downloader *)

(** Mirroring a tree raises its first failed fetch, succeeds when there
    is none, and prints nothing either way. *)
Lemma mirror_entries_outcome (localpath : string)
    (entries : list (string * remote)) :
  Forall (fun entry =>
            forall lp w,
              fst (mirror (snd entry) lp w) = outcome (snd entry) /\
              stdout (snd (mirror (snd entry) lp w)) = stdout w) entries ->
  forall w,
    fst (mirror_entries mirror localpath entries w)
      = outcome (RDir entries) /\
    stdout (snd (mirror_entries mirror localpath entries w)) = stdout w.
Proof.
  unfold outcome. cbn [first_failure].
  induction 1 as [|[name child] rest Hchild _ IHrest]; intros w.
  - simpl. auto.
  - cbn [snd] in Hchild. cbn [mirror_entries first_among]. unfold bind.
    destruct (Hchild (localpath +:+ "/" +:+ name) w) as [Hr Hs].
    destruct (mirror child (localpath +:+ "/" +:+ name) w) as [r w1].
    cbn [fst snd] in Hr, Hs. unfold outcome in Hr. subst r.
    destruct (first_failure child) as [e|].
    + simpl. auto.
    + destruct (IHrest w1) as [Hr' Hs']. split; [exact Hr'|congruence].
Qed.

Lemma mirror_outcome (node : remote) :
  forall localpath w,
    fst (mirror node localpath w) = outcome node /\
    stdout (snd (mirror node localpath w)) = stdout w.
Proof.
  induction node as [fetched|entries IH] using remote_tree_ind;
    intros localpath w.
  - destruct fetched as [content|e]; simpl; auto.
  - cbn [mirror]. unfold bind, mkdir.
    apply (mirror_entries_outcome localpath entries IH
             (mkWorld (files w) ({[localpath]} ∪ dirs w) (environ w)
                      (stdout w) (shell w))).
Qed.

Lemma append_inj (s x y : string) : s +:+ x = s +:+ y -> x = y.
Proof.
  induction s as [|c s IH]; simpl; [auto|].
  intros H. apply IH. now inversion H.
Qed.

Lemma append_assoc (s x y : string) : (s +:+ x) +:+ y = s +:+ (x +:+ y).
Proof.
  induction s as [|c s IH]; [reflexivity|].
  change (String c ((s +:+ x) +:+ y) = String c (s +:+ (x +:+ y))).
  now rewrite IH.
Qed.

(** C9. [download] on the tree [{a.txt, sub/{b.txt}}] with destination
    [D] writes [D/a.txt] and [D/sub/b.txt] with the fetched contents and
    then reports success; when the fetch of [sub/b.txt] fails, the
    command raises that failure, reports nothing, and [D/a.txt], written
    before, is still there.  For every tree, the command raises the first
    failed fetch without reporting success, and reports success when no
    fetch fails. *)
Theorem download_mirrors_or_fails (package D : string) (w : World) :
  (forall a b,
      hub package = Some [("a.txt", RFile (Ok a));
                          ("sub", RDir [("b.txt", RFile (Ok b))])] ->
      exists w',
        cmd_download package D w = (Ok tt, w') /\
        files w' !! (D +:+ "/a.txt") = Some a /\
        files w' !! (D +:+ "/sub/b.txt") = Some b /\
        stdout w' = stdout w ++ [downloaded package D]) /\
  (forall a e,
      hub package = Some [("a.txt", RFile (Ok a));
                          ("sub", RDir [("b.txt", RFile (Err e))])] ->
      exists w',
        cmd_download package D w = (Err e, w') /\
        files w' !! (D +:+ "/a.txt") = Some a /\
        files w' !! (D +:+ "/sub/b.txt") = files w !! (D +:+ "/sub/b.txt") /\
        stdout w' = stdout w) /\
  (forall entries e,
      hub package = Some entries ->
      first_failure (RDir entries) = Some e ->
      exists w', cmd_download package D w = (Err e, w') /\
                 stdout w' = stdout w) /\
  (forall entries,
      hub package = Some entries ->
      first_failure (RDir entries) = None ->
      exists w', cmd_download package D w = (Ok tt, w') /\
                 stdout w' = stdout w ++ [downloaded package D]).
Proof.
  assert (Hne : D +:+ "/a.txt" <> D +:+ "/sub/b.txt").
  { intros H. apply append_inj in H. discriminate. }
  assert (Hsub : (D +:+ "/sub") +:+ "/b.txt" = D +:+ "/sub/b.txt")
    by apply append_assoc.
  repeat split.
  - intros a b Hh. eexists.
    unfold cmd_download, download_github_path, bind. rewrite Hh.
    cbn. split; [reflexivity|]. cbn.
    change ((D +:+ "/" +:+ "sub") +:+ "/" +:+ "b.txt")
      with ((D +:+ "/sub") +:+ "/b.txt").
    change (D +:+ "/" +:+ "a.txt") with (D +:+ "/a.txt").
    rewrite Hsub, lookup_insert_ne by congruence.
    now rewrite !lookup_insert_eq.
  - intros a e Hh. eexists.
    unfold cmd_download, download_github_path, bind. rewrite Hh.
    cbn. split; [reflexivity|]. cbn.
    change (D +:+ "/" +:+ "a.txt") with (D +:+ "/a.txt").
    rewrite lookup_insert_eq, lookup_insert_ne by exact Hne. auto.
  - intros entries e Hh Hf.
    unfold cmd_download, download_github_path, bind. rewrite Hh.
    destruct (mirror_outcome (RDir entries) D w) as [Hr Hs].
    destruct (mirror (RDir entries) D w) as [r w1].
    cbn [fst snd] in Hr, Hs. unfold outcome in Hr. rewrite Hf in Hr.
    subst r. eauto.
  - intros entries Hh Hf.
    unfold cmd_download, download_github_path, bind. rewrite Hh.
    destruct (mirror_outcome (RDir entries) D w) as [Hr Hs].
    destruct (mirror (RDir entries) D w) as [r w1].
    cbn [fst snd] in Hr, Hs. unfold outcome in Hr. rewrite Hf in Hr.
    subst r. eexists. split; [reflexivity|]. cbn. now rewrite Hs.
Qed.

End Properties.

(** ** The theorems on the concrete platform *)

Lemma add_langserve_path_upsert_witness :
  exists self1 self2 t1 t2,
    add_langserve_path "/old" (VTuple [VStr "a"; VStr "x"]) Demo.app
      = (Ok tt, self1) /\
    get_langserve_paths self1 = Ok (VDict t1) /\
    dict_get t1 "/old" = Some (VTuple [VStr "a"; VStr "x"]) /\
    (dict_mem Demo.old_mounts "/old" = true ->
     length t1 = length Demo.old_mounts) /\
    (dict_mem Demo.old_mounts "/old" = false ->
     length t1 = S (length Demo.old_mounts)) /\
    add_langserve_path "/old" (VTuple [VStr "b"; VStr "y"]) self1
      = (Ok tt, self2) /\
    get_langserve_paths self2 = Ok (VDict t2) /\
    dict_get t2 "/old" = Some (VTuple [VStr "b"; VStr "y"]) /\
    length t2 = length t1 /\
    (forall q, q <> "/old" -> dict_get t2 q = dict_get Demo.old_mounts q).
Proof.
  apply (add_langserve_path_upsert Demo.app Demo.old_mounts "/old").
  reflexivity.
Defined.

Lemma remove_langserve_path_absent_witness :
  remove_langserve_path "/nope" Demo.app = (Err (KeyError "/nope"), Demo.app) /\
  get_langserve_paths Demo.app = Ok (VDict Demo.old_mounts).
Proof.
  apply (remove_langserve_path_absent Demo.app Demo.old_mounts "/nope");
    reflexivity.
Defined.

Lemma no_tool_table_is_a_lookup_failure_witness :
  is_langserve Demo.bare = Err (KeyError "tool") /\
  get_langserve_paths Demo.bare = Err (KeyError "tool") /\
  cmd_add (platform := Demo.platform) "simple/bare" None Demo.world
    = (Err (KeyError "tool"), Demo.world).
Proof.
  destruct (no_tool_table_is_a_lookup_failure (platform := Demo.platform)
              Demo.bare "/x" VNone eq_refl) as (A & _ & _ & B & C).
  split; [exact A|]. split; [exact B|].
  apply (C "simple/bare" Demo.bare_toml None Demo.world); reflexivity.
Defined.

(** C1, as stated, fails: the manifest of [simple/bare] has no
    [langserve] section, for it has no ["tool"] table at all, and [add]
    fails with a [KeyError], which is no [ValueError]. *)
Lemma add_bare_manifest_raises_key_error :
  urlopen (Platform := Demo.platform)
    (_package_to_pyproject (environ Demo.world) "simple/bare")
    = Ok Demo.bare_toml /\
  load_toml (Platform := Demo.platform) Demo.bare_toml = Some Demo.bare_doc /\
  dict_get Demo.bare_doc "tool" = None /\
  fst (cmd_add (platform := Demo.platform) "simple/bare" None Demo.world)
    = Err (KeyError "tool") /\
  ~ (exists msg,
        fst (cmd_add (platform := Demo.platform) "simple/bare" None Demo.world)
        = Err (ValueError msg)).
Proof.
  repeat split; try reflexivity.
  intros [msg H]. vm_compute in H. discriminate.
Qed.

Lemma add_rejects_before_any_effect_witness :
  cmd_add (platform := Demo.platform) "simple/plain" (Some "/plain") Demo.world
    = (Err (incompatible "simple/plain"), Demo.world).
Proof.
  destruct (add_rejects_before_any_effect (platform := Demo.platform)
              "simple/plain" Demo.plain_toml (Some "/plain") Demo.world
              Demo.plain_doc eq_refl eq_refl) as (H & _).
  apply (H [("poetry", VDict [("name", VStr "plain")])]); reflexivity.
Defined.

(** C3, as stated, fails: the installer of the concrete platform exits
    with status 1, and [add] succeeds, with the package mounted in the
    saved manifest. *)
Lemma add_succeeds_after_failed_install :
  fst (run_shell (Platform := Demo.platform)
         ("poetry add " +:+ _package_to_poetry "simple/pirate")
         (files Demo.world)) = 1%Z /\
  fst (cmd_add (platform := Demo.platform) "simple/pirate" None Demo.world)
    = Ok tt /\
  files (snd (cmd_add (platform := Demo.platform) "simple/pirate" None
                Demo.world)) !! "pyproject.toml"
    = Some "tool = {'poetry' = {'name' = 'app'}, 'langserve' = {'paths' = {'/old' = ['old.chain', 'chain'], '/simple/pirate' = ['pirate.chain', 'chain']}}}
".
Proof. repeat split; vm_compute; reflexivity. Qed.

Lemma add_goes_on_whatever_the_installer_status_witness :
  exists saved,
    add_langserve_path "/pirate" (VTuple [VStr "pirate.chain"; VStr "chain"])
      Demo.app = (Ok tt, saved) /\
    cmd_add (platform := Demo.platform) "simple/pirate" (Some "/pirate")
      Demo.world =
      (Ok tt,
       mkWorld (<["pyproject.toml" :=
                   dump_toml (Platform := Demo.platform) (data saved)]>
                  (files Demo.world))
               (dirs Demo.world) (environ Demo.world)
               (stdout Demo.world ++ ["Adding " +:+ "simple/pirate"])
               (shell Demo.world
                  ++ ["poetry add " +:+ _package_to_poetry "simple/pirate"])).
Proof.
  apply (add_goes_on_whatever_the_installer_status (platform := Demo.platform)
           "simple/pirate" Demo.pirate_toml Demo.app_toml (Some "/pirate")
           Demo.world Demo.pirate_doc Demo.app_doc
           [("export_module", VStr "pirate.chain"); ("export_attr", VStr "chain")]
           Demo.old_mounts (VStr "pirate.chain") (VStr "chain") 1%Z
           (files Demo.world));
    solve [reflexivity | discriminate].
Defined.

(** C2: on a project whose manifest loads and lists one mount, [list]
    raises [TypeError] at the subscript on the loaded document and prints
    nothing. *)
Theorem list_fails_on_a_loadable_manifest :
  fst (_load_pyproject (platform := Demo.platform) Demo.world) = Ok Demo.app /\
  get_langserve_paths Demo.app = Ok (VDict Demo.old_mounts) /\
  cmd_list (platform := Demo.platform) Demo.world
    = (Err (TypeError "'PyProject' object is not subscriptable"), Demo.world).
Proof. repeat split; reflexivity. Qed.

Lemma package_to_pyproject_location_witness :
  _package_to_pyproject Demo.token_env "./local/pkg"
    = "./local/pkg/pyproject.toml" /\
  _package_to_pyproject Demo.token_env "simple/pirate"
    = raw_base +:+ "simple/pirate/pyproject.toml?token=s3cret" /\
  _package_to_pyproject ∅ "simple/pirate"
    = raw_base +:+ "simple/pirate/pyproject.toml".
Proof.
  assert (Hhub : ~ (exists rest, "simple/pirate" = "." +:+ rest \/
                                 "simple/pirate" = "/" +:+ rest)).
  { intros [rest [H|H]]; discriminate. }
  split; [|split].
  - apply (package_to_pyproject_location Demo.token_env "./local/pkg").
    exists "/local/pkg". left. reflexivity.
  - destruct (package_to_pyproject_location Demo.token_env "simple/pirate")
      as (_ & H).
    destruct (H Hhub) as (Ht & _).
    apply (Ht "s3cret"); [reflexivity|discriminate].
  - destruct (package_to_pyproject_location ∅ "simple/pirate") as (_ & H).
    destruct (H Hhub) as (_ & Hn). apply Hn. left. reflexivity.
Defined.

Lemma get_langserve_export_names_the_missing_field_witness :
  get_langserve_export (platform := Demo.platform) Demo.pirate Demo.world
    = (Ok (VTuple [VStr "pirate.chain"; VStr "chain"]), Demo.world).
Proof.
  destruct (get_langserve_export_names_the_missing_field
              (platform := Demo.platform) Demo.pirate
              [("export_module", VStr "pirate.chain"); ("export_attr", VStr "chain")]
              Demo.world eq_refl) as (_ & _ & H & _).
  apply H; solve [reflexivity | discriminate].
Defined.

Lemma save_needs_a_path_witness :
  save (platform := Demo.platform) Demo.pirate Demo.world
    = (Err cannot_save, Demo.world) /\
  save (platform := Demo.platform) Demo.app Demo.world
    = (Ok tt,
       with_files (<["pyproject.toml" :=
                      dump_toml (Platform := Demo.platform) (data Demo.app)]>
                     (files Demo.world)) Demo.world).
Proof.
  split.
  - destruct (save_needs_a_path (platform := Demo.platform) Demo.pirate
                Demo.world) as (H & _).
    apply H. reflexivity.
  - destruct (save_needs_a_path (platform := Demo.platform) Demo.app
                Demo.world) as (_ & H & _).
    apply H. reflexivity.
Defined.

Lemma download_mirrors_or_fails_witness :
  (exists w',
      cmd_download (platform := Demo.platform) "simple/pirate" "dest" Demo.world
        = (Ok tt, w') /\
      files w' !! ("dest" +:+ "/a.txt") = Some "alpha" /\
      files w' !! ("dest" +:+ "/sub/b.txt") = Some "beta" /\
      stdout w' = stdout Demo.world ++ [downloaded "simple/pirate" "dest"]) /\
  (exists w',
      cmd_download (platform := Demo.platform) "simple/broken" "dest" Demo.world
        = (Err (HTTPError 500), w') /\
      files w' !! ("dest" +:+ "/a.txt") = Some "alpha" /\
      files w' !! ("dest" +:+ "/sub/b.txt")
        = files Demo.world !! ("dest" +:+ "/sub/b.txt") /\
      stdout w' = stdout Demo.world).
Proof.
  split.
  - destruct (download_mirrors_or_fails (platform := Demo.platform)
                "simple/pirate" "dest" Demo.world) as (H & _).
    apply H. reflexivity.
  - destruct (download_mirrors_or_fails (platform := Demo.platform)
                "simple/broken" "dest" Demo.world) as (_ & H & _).
    apply H. reflexivity.
Defined.

(** ** More on dictionaries *)

Lemma dict_get_del_ne (d : dict) (k q : string) :
  q <> k -> dict_get (dict_del d k) q = dict_get d q.
Proof.
  intros Hne. induction d as [|[k' v'] rest IH]; simpl; [reflexivity|].
  destruct (String.eqb k' k) eqn:E; simpl.
  - apply String.eqb_eq in E. subst k'.
    destruct (String.eqb k q) eqn:E'; [|reflexivity].
    apply String.eqb_eq in E'. congruence.
  - now rewrite IH.
Qed.

Lemma dict_get_none_not_in (d : dict) (k : string) :
  dict_get d k = None <-> ~ In k (map fst d).
Proof.
  induction d as [|[k' v'] rest IH]; simpl.
  - split; auto.
  - destruct (String.eqb k' k) eqn:E.
    + apply String.eqb_eq in E. split; [discriminate|]. intros H. tauto.
    + apply String.eqb_neq in E. rewrite IH. tauto.
Qed.

Lemma dict_get_del_eq (d : dict) (k : string) :
  unique_keys d -> dict_get (dict_del d k) k = None.
Proof.
  unfold unique_keys.
  induction d as [|[k' v'] rest IH]; simpl; intros Hu; [reflexivity|].
  inversion Hu as [|? ? Hnotin Hrest]; subst.
  destruct (String.eqb k' k) eqn:E; simpl.
  - apply String.eqb_eq in E. subst. apply dict_get_none_not_in.
    intros Hin. apply Hnotin. now apply list_elem_of_In.
  - rewrite E. now apply IH.
Qed.

Lemma dict_del_length (d : dict) (k : string) (x : value) :
  dict_get d k = Some x -> length (dict_del d k) + 1 = length d.
Proof.
  induction d as [|[k' v'] rest IH]; simpl; [discriminate|].
  destruct (String.eqb k' k); simpl; [lia|].
  intros H. specialize (IH H). lia.
Qed.

Lemma dict_set_absent (d : dict) (k : string) (v : value) :
  dict_get d k = None -> dict_set d k v = d ++ [(k, v)].
Proof.
  induction d as [|[k' v'] rest IH]; simpl; [reflexivity|].
  destruct (String.eqb k' k); [discriminate|].
  intros H. now rewrite IH.
Qed.

Lemma dict_set_keys_present (d : dict) (k : string) (v x : value) :
  dict_get d k = Some x -> map fst (dict_set d k v) = map fst d.
Proof.
  induction d as [|[k' v'] rest IH]; simpl; [discriminate|].
  destruct (String.eqb k' k) eqn:E; simpl.
  - apply String.eqb_eq in E. now subst.
  - intros H. now rewrite IH.
Qed.

Lemma dict_del_set_absent (d : dict) (k : string) (v : value) :
  dict_get d k = None -> dict_del (dict_set d k v) k = d.
Proof.
  induction d as [|[k' v'] rest IH]; simpl.
  - now rewrite String.eqb_refl.
  - destruct (String.eqb k' k) eqn:E; [discriminate|].
    intros H. simpl. rewrite E. now rewrite IH.
Qed.

(** ** Writing the mount table back *)

(** The document a successful [_set_langserve_path_dict] leaves. *)
Lemma set_path_dict_inv (pd : value) (self self' : PyProject) (r : result unit) :
  _set_langserve_path_dict pd self = (r, self') ->
  match r with
  | Err _ => self' = self
  | Ok _ =>
      exists tl ls,
        dict_get (data self) "tool" = Some (VDict tl) /\
        tool_langserve self = Ok (VDict ls) /\
        self' = mkPyProject
                  (dict_set (data self) "tool"
                     (VDict (dict_set tl "langserve"
                               (VDict (dict_set ls "paths" pd)))))
                  (path self)
  end.
Proof.
  unfold _set_langserve_path_dict, bind, get_state, lift, put_state.
  unfold tool_langserve, tool, py_getitem.
  destruct (dict_get (data self) "tool") as [tv|] eqn:Ht;
    [|intros H; now inversion H].
  destruct tv as [| | | | | | | |tl]; simpl;
    try (intros H; now inversion H).
  destruct (dict_get tl "langserve") as [lv|] eqn:Hl.
  - destruct lv as [| | | | | | | |ls]; simpl;
      try (intros H; now inversion H).
    intros H. inversion H. subst. exists tl, ls. auto.
  - simpl. intros H. inversion H. subst. exists tl, []. auto.
Qed.

Lemma update_paths_inv (change : value -> result value)
    (self self' : PyProject) (r : result unit) :
  update_paths change self = (r, self') ->
  match r with
  | Err _ => self' = self
  | Ok _ =>
      exists tl ls pv pv',
        dict_get (data self) "tool" = Some (VDict tl) /\
        tool_langserve self = Ok (VDict ls) /\
        _get_langserve_path_dict self = Ok pv /\
        change pv = Ok pv' /\
        self' = mkPyProject
                  (dict_set (data self) "tool"
                     (VDict (dict_set tl "langserve"
                               (VDict (dict_set ls "paths" pv')))))
                  (path self)
  end.
Proof.
  unfold update_paths, bind, get_state, lift.
  destruct (_get_langserve_path_dict self) as [pv|e] eqn:Hg;
    [|intros H; now inversion H].
  destruct (change pv) as [pv'|e] eqn:Hc; [|intros H; now inversion H].
  intros H. apply set_path_dict_inv in H. destruct r as [u|e]; [|exact H].
  destruct H as (tl & ls & Ht & Hl & ->). exists tl, ls, pv, pv'. auto.
Qed.

Lemma update_paths_ok (change : value -> result value)
    (self : PyProject) (pv pv' : value) :
  _get_langserve_path_dict self = Ok pv ->
  change pv = Ok pv' ->
  exists self',
    update_paths change self = (Ok tt, self') /\
    _get_langserve_path_dict self' = Ok pv'.
Proof.
  intros Hg Hc. destruct (path_dict_shape _ _ Hg) as (tl & ls & Ht & Hl & _).
  eexists. split.
  - unfold update_paths, bind, get_state, lift. rewrite Hg. simpl.
    rewrite Hc. simpl. apply (set_path_dict_ok self tl ls _ Ht Hl).
  - apply get_after_set.
Qed.

(** X1. When [_set_langserve_path_dict] succeeds, the table read back is
    the one that was given, and nothing else in the document has moved: the
    path of the document, the top-level keys and their order, every
    top-level entry but ["tool"], every entry of the ["tool"] table but
    ["langserve"], and every entry of the ["langserve"] table but
    ["paths"]. *)
Theorem set_path_dict_only_touches_paths
    (pd : value) (self self' : PyProject) :
  _set_langserve_path_dict pd self = (Ok tt, self') ->
  _get_langserve_path_dict self' = Ok pd /\
  path self' = path self /\
  map fst (data self') = map fst (data self) /\
  (forall q, q <> "tool" -> dict_get (data self') q = dict_get (data self) q) /\
  (exists tl tl',
      tool self = Ok (VDict tl) /\ tool self' = Ok (VDict tl') /\
      forall k, k <> "langserve" -> dict_get tl' k = dict_get tl k) /\
  (exists ls ls',
      tool_langserve self = Ok (VDict ls) /\
      tool_langserve self' = Ok (VDict ls') /\
      forall k, k <> "paths" -> dict_get ls' k = dict_get ls k).
Proof.
  intros H. apply set_path_dict_inv in H.
  destruct H as (tl & ls & Ht & Hl & ->). simpl.
  split; [apply get_after_set|]. split; [reflexivity|].
  split; [eapply dict_set_keys_present; eassumption|].
  split; [intros q Hq; now apply dict_get_set_ne|]. split.
  - exists tl, (dict_set tl "langserve" (VDict (dict_set ls "paths" pd))).
    unfold tool, py_getitem. simpl. rewrite Ht, dict_get_set_eq.
    repeat split. intros k Hk. now apply dict_get_set_ne.
  - exists ls, (dict_set ls "paths" pd).
    split; [exact Hl|]. split.
    + unfold tool_langserve, tool, py_getitem. simpl.
      rewrite dict_get_set_eq. simpl. now rewrite dict_get_set_eq.
    + intros k Hk. now apply dict_get_set_ne.
Qed.

(** X2. [add_langserve_path] succeeds exactly when the mount table of the
    document can be read and is a table; when what is read is not a table
    it raises a [TypeError]; and whenever it raises, the document is left
    as it was. *)
Theorem add_langserve_path_outcome
    (self : PyProject) (p : string) (e : value) :
  ((exists self', add_langserve_path p e self = (Ok tt, self')) <->
   (exists t, get_langserve_paths self = Ok (VDict t))) /\
  (forall v, get_langserve_paths self = Ok v ->
             (forall t, v <> VDict t) ->
             exists msg, add_langserve_path p e self = (Err (TypeError msg), self)) /\
  (forall err self', add_langserve_path p e self = (Err err, self') ->
                     self' = self).
Proof.
  change (add_langserve_path p e)
    with (update_paths (fun paths => py_setitem paths p e)).
  unfold get_langserve_paths. repeat split.
  - intros [self' H]. apply update_paths_inv in H.
    destruct H as (_ & _ & pv & pv' & _ & _ & Hg & Hc & _).
    destruct pv; simpl in Hc; try discriminate. eauto.
  - intros [t Hg].
    destruct (update_paths_ok (fun paths => py_setitem paths p e) self
                (VDict t) (VDict (dict_set t p e)) Hg eq_refl) as (self' & H & _).
    eauto.
  - intros v Hg Hv.
    unfold update_paths, bind, get_state, lift. rewrite Hg. simpl.
    destruct v; simpl; eauto. exfalso. now apply (Hv entries).
  - intros err self' H.
    apply (update_paths_inv _ self self' (Err err) H).
Qed.

(** X3. [remove_langserve_path] on a path [p] that the mount table [t] of
    the document maps succeeds; the table listed afterwards is [t] without
    the entry of [p]: one entry shorter, every other path mapped as before,
    and [p] no longer mapped.  Whenever the method raises, the document is
    left as it was. *)
Theorem remove_langserve_path_outcome (self : PyProject) (p : string) :
  (forall t x,
      get_langserve_paths self = Ok (VDict t) ->
      unique_keys t ->
      dict_get t p = Some x ->
      exists self' t',
        remove_langserve_path p self = (Ok tt, self') /\
        get_langserve_paths self' = Ok (VDict t') /\
        length t' + 1 = length t /\
        dict_get t' p = None /\
        (forall q, q <> p -> dict_get t' q = dict_get t q)) /\
  (forall err self', remove_langserve_path p self = (Err err, self') ->
                     self' = self).
Proof.
  change (remove_langserve_path p)
    with (update_paths (fun paths => py_pop paths p)).
  unfold get_langserve_paths. split.
  - intros t x Hg Hu Hp.
    assert (Hc : py_pop (VDict t) p = Ok (VDict (dict_del t p)))
      by (simpl; now rewrite Hp).
    destruct (update_paths_ok (fun paths => py_pop paths p) self _ _ Hg Hc)
      as (self' & H & Hg').
    exists self', (dict_del t p). repeat split; try assumption.
    + eapply dict_del_length; eassumption.
    + now apply dict_get_del_eq.
    + intros q Hq. now apply dict_get_del_ne.
  - intros err self' H.
    apply (update_paths_inv _ self self' (Err err) H).
Qed.

(** X4. The mount table keeps insertion order: mounting a path that was
    not mounted puts its entry after all the others, and mounting a path
    that was mounted leaves the paths of the table in the order they had. *)
Theorem add_langserve_path_keeps_order
    (self : PyProject) (t : dict) (p : string) (e : value) :
  get_langserve_paths self = Ok (VDict t) ->
  exists self' t',
    add_langserve_path p e self = (Ok tt, self') /\
    get_langserve_paths self' = Ok (VDict t') /\
    (dict_mem t p = false -> t' = t ++ [(p, e)]) /\
    (dict_mem t p = true -> map fst t' = map fst t).
Proof.
  intros Hg.
  destruct (add_langserve_path_ok self t p e Hg) as (self' & H & Hg' & _).
  exists self', (dict_set t p e). repeat split; try assumption.
  - unfold dict_mem. destruct (dict_get t p) eqn:E; [discriminate|].
    intros _. now apply dict_set_absent.
  - unfold dict_mem. destruct (dict_get t p) eqn:E; [|discriminate].
    intros _. eapply dict_set_keys_present; eassumption.
Qed.

(** X5. Mounting a path that was not mounted and then removing it gives
    back the mount table the document had. *)
Theorem add_then_remove_restores_the_table
    (self : PyProject) (t : dict) (p : string) (e : value) :
  get_langserve_paths self = Ok (VDict t) ->
  dict_get t p = None ->
  exists self1 self2,
    add_langserve_path p e self = (Ok tt, self1) /\
    remove_langserve_path p self1 = (Ok tt, self2) /\
    get_langserve_paths self2 = Ok (VDict t).
Proof.
  intros Hg Hp.
  destruct (add_langserve_path_ok self t p e Hg) as (self1 & H1 & Hg1 & _).
  assert (Hc : py_pop (VDict (dict_set t p e)) p = Ok (VDict t)).
  { simpl. rewrite dict_get_set_eq. now rewrite dict_del_set_absent. }
  destruct (update_paths_ok (fun paths => py_pop paths p) self1 _ _ Hg1 Hc)
    as (self2 & H2 & Hg2).
  exists self1, self2. auto.
Qed.

(** X6. Once a mount has been added to or removed from a document, the
    document has a ["langserve"] section: [is_langserve] answers [True] on
    it, whatever it answered before. *)
Theorem mutated_document_is_langserve
    (self self' : PyProject) (p : string) (e : value) :
  add_langserve_path p e self = (Ok tt, self') \/
  remove_langserve_path p self = (Ok tt, self') ->
  is_langserve self' = Ok true.
Proof.
  assert (G : forall change, update_paths change self = (Ok tt, self') ->
                             is_langserve self' = Ok true).
  { intros change H. apply update_paths_inv in H.
    destruct H as (tl & ls & pv & pv' & _ & _ & _ & _ & ->).
    unfold is_langserve, tool, py_getitem. simpl.
    rewrite dict_get_set_eq. simpl. unfold dict_mem.
    now rewrite dict_get_set_eq. }
  intros [H|H]; eapply G; exact H.
Qed.

Section CommandProperties.

Context {platform : Platform}.

(** ** The [remove] command *)

(** X7. [remove] of a path that the mount table of the manifest does not
    map fails with [KeyError] for that path; and however [remove] fails (no
    manifest, a manifest that does not parse, no table, no such path), the
    world is left as it was: no file is written. *)
Theorem cmd_remove_failure_writes_nothing (p : string) (w : World) :
  (forall content d t,
      files w !! "pyproject.toml" = Some content ->
      load_toml content = Some d ->
      get_langserve_paths (mkPyProject d (Some "pyproject.toml"))
        = Ok (VDict t) ->
      dict_get t p = None ->
      cmd_remove p w = (Err (KeyError p), w)) /\
  (forall err w', cmd_remove p w = (Err err, w') -> w' = w).
Proof.
  unfold cmd_remove, bind, _load_pyproject, load, bind, read_file, lift,
    parse_toml, ret, call.
  split.
  - intros content d t Hf Hl Hg Hp. rewrite Hf, Hl.
    unfold get_langserve_paths in Hg.
    unfold remove_langserve_path, bind, get_state, lift. rewrite Hg.
    simpl. now rewrite Hp.
  - intros err w'.
    destruct (files w !! "pyproject.toml") as [content|];
      [|intros H; now inversion H].
    destruct (load_toml content) as [d|]; [|intros H; now inversion H].
    destruct (remove_langserve_path p (mkPyProject d (Some "pyproject.toml")))
      as [[u|e] self'] eqn:Hr; [|intros H; now inversion H].
    change (remove_langserve_path p)
      with (update_paths (fun paths => py_pop paths p)) in Hr.
    apply update_paths_inv in Hr.
    destruct Hr as (tl & ls & pv & pv' & _ & _ & _ & _ & ->).
    simpl. discriminate.
Qed.

(** X8. [remove] of a path that the mount table of the manifest maps
    succeeds and writes to [pyproject.toml] the text of the document
    without that mount; no other file changes, nothing is printed and no
    shell command is run. *)
Theorem cmd_remove_rewrites_the_manifest
    (p content : string) (w : World) (d t : dict) (x : value) :
  files w !! "pyproject.toml" = Some content ->
  load_toml content = Some d ->
  get_langserve_paths (mkPyProject d (Some "pyproject.toml")) = Ok (VDict t) ->
  dict_get t p = Some x ->
  exists saved,
    remove_langserve_path p (mkPyProject d (Some "pyproject.toml"))
      = (Ok tt, saved) /\
    get_langserve_paths saved = Ok (VDict (dict_del t p)) /\
    cmd_remove p w =
      (Ok tt,
       with_files (<["pyproject.toml" := dump_toml (data saved)]> (files w)) w).
Proof.
  intros Hf Hl Hg Hp.
  assert (Hc : py_pop (VDict t) p = Ok (VDict (dict_del t p)))
    by (simpl; now rewrite Hp).
  destruct (update_paths_ok (fun paths => py_pop paths p) _ _ _ Hg Hc)
    as (saved & Hr & Hg').
  exists saved. split; [exact Hr|]. split; [exact Hg'|].
  pose proof (update_paths_inv _ _ _ _ Hr) as Hinv.
  destruct Hinv as (tl & ls & pv & pv' & _ & _ & _ & _ & Hs).
  unfold cmd_remove, bind, _load_pyproject, load, bind, read_file, lift,
    parse_toml, ret, call.
  rewrite Hf, Hl.
  change (remove_langserve_path p)
    with (update_paths (fun paths => py_pop paths p)).
  rewrite Hr. simpl. unfold save. rewrite Hs. reflexivity.
Qed.

(** ** Saving and loading *)

(** X9. When the parser reads back the text the printer writes for the
    data of a document, saving a document that has a path and loading that
    path again gives the same document. *)
Theorem save_then_load (self : PyProject) (p : string) (w : World) :
  path self = Some p ->
  load_toml (dump_toml (data self)) = Some (data self) ->
  exists w',
    save self w = (Ok tt, w') /\
    load p w' = (Ok self, w').
Proof.
  destruct self as [d q]. simpl. intros -> Hrt.
  eexists. split; [reflexivity|].
  unfold load, bind, read_file, lift, parse_toml, ret. simpl.
  rewrite lookup_insert_eq. now rewrite Hrt.
Qed.

(** ** Fetching a manifest *)

(** X10. [from_url] never changes the world; an HTTP error of any status
    becomes the same [ValueError] about the token; and a document it
    returns has no path and holds the parsed content of the address. *)
Theorem from_url_outcome (url : string) (w : World) :
  (forall code, urlopen url = Err (HTTPError code) ->
                from_url url w = (Err token_hint, w)) /\
  (forall r w', from_url url w = (r, w') ->
     w' = w /\
     match r with
     | Ok doc => path doc = None /\
                 exists content, urlopen url = Ok content /\
                                 load_toml content = Some (data doc)
     | Err _ => True
     end).
Proof.
  unfold from_url, bind, lift, parse_toml, ret, raise. split.
  - intros code H. now rewrite H.
  - intros r w'. destruct (urlopen url) as [content|e].
    + destruct (load_toml content) as [d|] eqn:Hl; simpl;
        intros H; inversion H; subst; split; auto.
      simpl. eauto.
    + destruct e; intros H; inversion H; subst; auto.
Qed.

(** ** More on the registration workflow *)

(** X11. When the manifest of the package cannot be fetched or parsed,
    [add] fails with the error of [from_url] and the world is left as it
    was. *)
Theorem add_fails_with_the_fetch (package : string) (path_arg : option string)
    (w : World) (err : exn) :
  fst (from_url (_package_to_pyproject (environ w) package) w) = Err err ->
  cmd_add package path_arg w = (Err err, w).
Proof.
  intros H. unfold cmd_add, bind, get_state.
  destruct (from_url (_package_to_pyproject (environ w) package) w)
    as [r w'] eqn:Hf.
  destruct (proj2 (from_url_outcome _ w) r w' Hf) as [-> _].
  simpl in H. now subst r.
Qed.

(** X12. A package that has a ["langserve"] section but declares no
    [export_module] passes the compatibility check: [add] runs the
    installer, loads the local manifest, and only then fails with the
    error naming [export_module].  The files are as the installer left
    them: [add] has saved nothing. *)
Theorem add_installs_before_it_reads_the_export
    (package content local_text : string) (path_arg : option string)
    (w : World) (remote_doc local_doc ls : dict)
    (status : Z) (installed : gmap string string) :
  urlopen (_package_to_pyproject (environ w) package) = Ok content ->
  load_toml content = Some remote_doc ->
  is_langserve (mkPyProject remote_doc None) = Ok true ->
  tool_langserve (mkPyProject remote_doc None) = Ok (VDict ls) ->
  dict_get ls "export_module" = None ->
  run_shell ("poetry add " +:+ _package_to_poetry package) (files w)
    = (status, installed) ->
  installed !! "pyproject.toml" = Some local_text ->
  load_toml local_text = Some local_doc ->
  cmd_add package path_arg w =
    (Err (ValueError no_module),
     mkWorld installed (dirs w) (environ w)
             (stdout w ++ ["Adding " +:+ package] ++ [repr (VDict remote_doc)])
             (shell w ++ ["poetry add " +:+ _package_to_poetry package])).
Proof.
  intros Hu Hl Hc Hls Hm Hrun Hfile Hlocal.
  unfold cmd_add, bind, get_state, from_url, lift, parse_toml, ret.
  rewrite Hu. simpl. rewrite Hl. simpl. rewrite Hc. simpl.
  unfold subprocess_run. simpl. rewrite Hrun.
  unfold _load_pyproject, load, bind, read_file, lift, parse_toml, ret.
  simpl. rewrite Hfile, Hlocal.
  unfold get_langserve_export, bind, lift. rewrite Hls.
  unfold py_get. rewrite Hm. simpl. now rewrite <- app_assoc.
Qed.

(** X13. When the project has no [pyproject.toml] once the installer is
    done, [add] of a compatible package fails with [FileNotFoundError],
    after the installer has run and before the export of the package is
    read. *)
Theorem add_needs_a_local_manifest
    (package content : string) (path_arg : option string)
    (w : World) (remote_doc : dict)
    (status : Z) (installed : gmap string string) :
  urlopen (_package_to_pyproject (environ w) package) = Ok content ->
  load_toml content = Some remote_doc ->
  is_langserve (mkPyProject remote_doc None) = Ok true ->
  run_shell ("poetry add " +:+ _package_to_poetry package) (files w)
    = (status, installed) ->
  installed !! "pyproject.toml" = None ->
  cmd_add package path_arg w =
    (Err (FileNotFoundError "pyproject.toml"),
     mkWorld installed (dirs w) (environ w)
             (stdout w ++ ["Adding " +:+ package])
             (shell w ++ ["poetry add " +:+ _package_to_poetry package])).
Proof.
  intros Hu Hl Hc Hrun Hfile.
  unfold cmd_add, bind, get_state, from_url, lift, parse_toml, ret.
  rewrite Hu. simpl. rewrite Hl. simpl. rewrite Hc. simpl.
  unfold subprocess_run. simpl. rewrite Hrun.
  unfold _load_pyproject, load, bind, read_file. simpl. now rewrite Hfile.
Qed.

(** X14. The mount path of [add] defaults to [/] followed by the package:
    leaving the argument out, giving the empty string, and giving that
    path all do the same. *)
Theorem add_default_mount_path (package : string) (w : World) :
  cmd_add package (Some "") w = cmd_add package None w /\
  cmd_add package (Some ("/" +:+ package)) w = cmd_add package None w.
Proof. split; reflexivity. Qed.

(** ** More on the identifier resolver *)

Lemma length_append (s x : string) :
  String.length (s +:+ x) = String.length s + String.length x.
Proof.
  induction s as [|c s IH]; [reflexivity|].
  change (S (String.length (s +:+ x)) = S (String.length s + String.length x)).
  now rewrite IH.
Qed.

Lemma append_inj_r (s x y : string) : x +:+ s = y +:+ s -> x = y.
Proof.
  revert y. induction x as [|c x IH]; intros [|c' y] H.
  - reflexivity.
  - apply (f_equal String.length) in H.
    change (String c' y +:+ s) with (String c' (y +:+ s)) in H.
    simpl in H. rewrite !length_append in H. simpl in H. lia.
  - apply (f_equal String.length) in H.
    change (String c x +:+ s) with (String c (x +:+ s)) in H.
    simpl in H. rewrite !length_append in H. simpl in H. lia.
  - change (String c (x +:+ s) = String c' (y +:+ s)) in H.
    inversion H. f_equal. now apply IH.
Qed.

Lemma is_local_first_char (package : string) :
  is_local package = true ->
  exists rest, package = String "." rest \/ package = String "/" rest.
Proof.
  unfold is_local. rewrite orb_true_iff, !startswith_char.
  intros [[r Hr]|[r Hr]]; exists r; auto.
Qed.

(** X15. [_package_to_poetry] gives an identifier back unchanged exactly
    when it starts with [.] or [/]; every other identifier is put after
    the address of the hub repository.  On the identifiers it leaves
    unchanged, the manifest location of [_package_to_pyproject] is the
    source location followed by [/pyproject.toml], whatever the
    environment. *)
Theorem package_to_poetry_fixed_points (package : string) :
  (_package_to_poetry package = package <-> is_local package = true) /\
  (is_local package = false ->
   _package_to_poetry package = git_base +:+ package) /\
  (is_local package = true ->
   forall env, _package_to_pyproject env package
               = _package_to_poetry package +:+ "/pyproject.toml").
Proof.
  unfold _package_to_poetry, _package_to_pyproject, is_local.
  destruct (startswith package "." || startswith package "/") eqn:E.
  - repeat split; auto; discriminate.
  - repeat split; try discriminate; auto.
    intros H. apply (f_equal String.length) in H.
    change (String.length (git_base +:+ package) = String.length package) in H.
    rewrite length_append in H. simpl in H. lia.
Qed.

(** X16. [_package_to_poetry] never sends two identifiers to the same
    source location. *)
Theorem package_to_poetry_injective (p q : string) :
  _package_to_poetry p = _package_to_poetry q -> p = q.
Proof.
  pose proof (package_to_poetry_fixed_points p) as (_ & Hp & _).
  pose proof (package_to_poetry_fixed_points q) as (_ & Hq & _).
  assert (Hmixed : forall a b, is_local a = true ->
                     a = git_base +:+ b -> False).
  { intros a b Ha Hab. apply is_local_first_char in Ha.
    destruct Ha as [rest [Hr|Hr]]; rewrite Hr in Hab; discriminate. }
  destruct (is_local p) eqn:Ep; destruct (is_local q) eqn:Eq.
  - unfold _package_to_poetry. fold (is_local p). fold (is_local q).
    now rewrite Ep, Eq.
  - rewrite (Hq eq_refl). unfold _package_to_poetry. fold (is_local p).
    rewrite Ep. intros H. exfalso. eapply Hmixed; eassumption.
  - rewrite (Hp eq_refl). unfold _package_to_poetry. fold (is_local q).
    rewrite Eq. intros H. exfalso. eapply Hmixed; [exact Eq|].
    symmetry; exact H.
  - rewrite (Hp eq_refl), (Hq eq_refl). apply append_inj.
Qed.

(** X17. In a given environment, [_package_to_pyproject] never sends two
    identifiers to the same manifest location. *)
Theorem package_to_pyproject_injective
    (env : gmap string string) (p q : string) :
  _package_to_pyproject env p = _package_to_pyproject env q -> p = q.
Proof.
  assert (Hmixed : forall a s, is_local a = true ->
                     a +:+ "/pyproject.toml" = raw_base +:+ s -> False).
  { intros a s Ha Hab. apply is_local_first_char in Ha.
    destruct Ha as [rest [Hr|Hr]]; rewrite Hr in Hab; discriminate. }
  unfold _package_to_pyproject. fold (is_local p). fold (is_local q).
  set (tokenparam := match env !! "GITHUB_TOKEN" with
                     | Some "" | None => ""
                     | Some token => "?token=" +:+ token
                     end).
  destruct (is_local p) eqn:Ep; destruct (is_local q) eqn:Eq.
  - apply append_inj_r.
  - intros H. exfalso. eapply (Hmixed p); eassumption.
  - intros H. exfalso. eapply (Hmixed q); [exact Eq|]. symmetry. exact H.
  - intros H. apply append_inj in H. now apply append_inj_r in H.
Qed.

End CommandProperties.

Section ServeProperties.

Context {platform : Platform} {runtime : Runtime}.

(** ** The [serve] command *)


(** X20. On a project whose mount table is empty, [serve] hands the server
    an application to which no route was added. *)
Theorem serve_without_mounts
    (w : World) (text : string) (d : dict)
    (status : Z) (installed : gmap string string) :
  run_shell "poetry install" (files w) = (status, installed) ->
  installed !! "pyproject.toml" = Some text ->
  load_toml text = Some d ->
  get_langserve_paths (mkPyProject d (Some "pyproject.toml")) = Ok (VDict []) ->
  fst (cmd_serve w) = Ok FastAPI.
Proof.
  intros Hrun Hf Hl Hg.
  unfold cmd_serve, bind, echo, subprocess_run, _load_pyproject, load, bind,
    read_file, lift, parse_toml, ret. simpl.
  rewrite Hrun. simpl. rewrite Hf, Hl. simpl. rewrite Hg. reflexivity.
Qed.

Lemma mount_routes_app (before after : list (string * value)) (fastapp : app) :
  mount_routes (before ++ after) fastapp =
  match mount_routes before fastapp with
  | Ok fastapp' => mount_routes after fastapp'
  | Err e => Err e
  end.
Proof.
  revert fastapp. induction before as [|[k v] before IH]; intros fastapp.
  - reflexivity.
  - simpl. destruct (mount_route fastapp k v); [apply IH|reflexivity].
Qed.

(** X21. A mount whose entry is a list of fewer or more than two items
    fails with the [ValueError] of the unpacking, for every application
    and whatever the import system holds.  Wherever the mount stands in
    the table, once the mounts before it were set up the loop fails with
    that error whatever mounts follow, and [serve] raises it after the two
    lines about the installation, without the line about the docs. *)
Theorem serve_rejects_a_mount_that_is_no_pair (k : string) (l : list value) :
  length l <> 2 ->
  exists msg,
    py_unpack2 (VList l) = Err (ValueError msg) /\
    (forall fastapp, mount_route fastapp k (VList l) = Err (ValueError msg)) /\
    (forall before rest fastapp fastapp',
        mount_routes before fastapp = Ok fastapp' ->
        mount_routes (before ++ (k, VList l) :: rest) fastapp
        = Err (ValueError msg)) /\
    (forall (w : World) (text : string) (d : dict)
            (before rest : list (string * value))
            (status : Z) (installed : gmap string string) (fastapp' : app),
        run_shell "poetry install" (files w) = (status, installed) ->
        installed !! "pyproject.toml" = Some text ->
        load_toml text = Some d ->
        get_langserve_paths (mkPyProject d (Some "pyproject.toml"))
          = Ok (VDict (before ++ (k, VList l) :: rest)) ->
        mount_routes before FastAPI = Ok fastapp' ->
        cmd_serve w =
          (Err (ValueError msg),
           mkWorld installed (dirs w) (environ w)
                   (stdout w
                    ++ ["Validating dependencies and installing missing ones";
                        "Successfully installed missing dependencies"])
                   (shell w ++ ["poetry install"]))).
Proof.
  intros Hlen.
  assert (Hu : exists msg, py_unpack2 (VList l) = Err (ValueError msg)).
  { unfold py_unpack2. simpl.
    destruct l as [|a [|b [|c l']]]; simpl in *; eauto. lia. }
  destruct Hu as [msg Hu]. exists msg.
  assert (Hroute : forall fastapp,
             mount_route fastapp k (VList l) = Err (ValueError msg)).
  { intros fastapp. unfold mount_route. now rewrite Hu. }
  assert (Hloop : forall before rest fastapp fastapp',
             mount_routes before fastapp = Ok fastapp' ->
             mount_routes (before ++ (k, VList l) :: rest) fastapp
             = Err (ValueError msg)).
  { intros before rest fastapp fastapp' Hb.
    rewrite mount_routes_app, Hb. simpl. now rewrite Hroute. }
  split; [exact Hu|]. split; [exact Hroute|]. split; [exact Hloop|].
  intros w text d before rest status installed fastapp' Hrun Hf Hl Hg Hb.
  unfold cmd_serve, bind, echo, subprocess_run, _load_pyproject, load, bind,
    read_file, lift, parse_toml, ret. simpl.
  rewrite Hrun. simpl. rewrite Hf, Hl. simpl. rewrite Hg. simpl.
  rewrite (Hloop before rest FastAPI fastapp' Hb). simpl.
  now rewrite <- app_assoc.
Qed.

End ServeProperties.

(** ** The further theorems on the concrete platforms *)

Lemma set_path_dict_only_touches_paths_witness :
  _get_langserve_path_dict
    (snd (_set_langserve_path_dict (VDict []) Demo.app)) = Ok (VDict []) /\
  path (snd (_set_langserve_path_dict (VDict []) Demo.app)) = path Demo.app.
Proof.
  destruct (set_path_dict_only_touches_paths (VDict []) Demo.app
              (snd (_set_langserve_path_dict (VDict []) Demo.app)) eq_refl)
    as (A & B & _).
  split; assumption.
Defined.

Lemma add_langserve_path_outcome_witness :
  exists self',
    add_langserve_path "/new" (VTuple [VStr "m"; VStr "a"]) Demo.app
    = (Ok tt, self').
Proof.
  destruct (add_langserve_path_outcome Demo.app "/new"
              (VTuple [VStr "m"; VStr "a"])) as (H & _).
  apply H. exists Demo.old_mounts. reflexivity.
Defined.

Lemma old_mounts_unique : unique_keys Demo.old_mounts.
Proof.
  unfold unique_keys. simpl. apply NoDup_cons. split.
  - apply not_elem_of_nil.
  - apply NoDup_nil. exact I.
Defined.

Lemma remove_langserve_path_outcome_witness :
  exists self' t',
    remove_langserve_path "/old" Demo.app = (Ok tt, self') /\
    get_langserve_paths self' = Ok (VDict t') /\
    length t' + 1 = length Demo.old_mounts /\
    dict_get t' "/old" = None /\
    (forall q, q <> "/old" -> dict_get t' q = dict_get Demo.old_mounts q).
Proof.
  destruct (remove_langserve_path_outcome Demo.app "/old") as (H & _).
  apply (H Demo.old_mounts (VList [VStr "old.chain"; VStr "chain"]));
    [reflexivity|exact old_mounts_unique|reflexivity].
Defined.

Lemma add_langserve_path_keeps_order_witness :
  exists self' t',
    add_langserve_path "/new" (VTuple [VStr "m"; VStr "a"]) Demo.app
      = (Ok tt, self') /\
    get_langserve_paths self' = Ok (VDict t') /\
    (dict_mem Demo.old_mounts "/new" = false ->
     t' = Demo.old_mounts ++ [("/new", VTuple [VStr "m"; VStr "a"])]) /\
    (dict_mem Demo.old_mounts "/new" = true ->
     map fst t' = map fst Demo.old_mounts).
Proof.
  apply (add_langserve_path_keeps_order Demo.app Demo.old_mounts "/new").
  reflexivity.
Defined.

Lemma add_then_remove_restores_the_table_witness :
  exists self1 self2,
    add_langserve_path "/new" (VTuple [VStr "m"; VStr "a"]) Demo.app
      = (Ok tt, self1) /\
    remove_langserve_path "/new" self1 = (Ok tt, self2) /\
    get_langserve_paths self2 = Ok (VDict Demo.old_mounts).
Proof.
  apply (add_then_remove_restores_the_table Demo.app Demo.old_mounts "/new");
    reflexivity.
Defined.

Lemma mutated_document_is_langserve_witness :
  is_langserve (mkPyProject Demo.plain_doc None) = Ok false /\
  is_langserve
    (snd (add_langserve_path "/new" VNone (mkPyProject Demo.plain_doc None)))
  = Ok true.
Proof.
  split; [reflexivity|].
  apply (mutated_document_is_langserve (mkPyProject Demo.plain_doc None) _
           "/new" VNone).
  left. reflexivity.
Defined.

Lemma cmd_remove_failure_writes_nothing_witness :
  cmd_remove (platform := Demo.platform) "/nope" Demo.world
  = (Err (KeyError "/nope"), Demo.world).
Proof.
  destruct (cmd_remove_failure_writes_nothing (platform := Demo.platform)
              "/nope" Demo.world) as (H & _).
  apply (H Demo.app_toml Demo.app_doc Demo.old_mounts); reflexivity.
Defined.

Lemma cmd_remove_rewrites_the_manifest_witness :
  exists saved,
    remove_langserve_path "/old" Demo.app = (Ok tt, saved) /\
    get_langserve_paths saved = Ok (VDict (dict_del Demo.old_mounts "/old")) /\
    cmd_remove (platform := Demo.platform) "/old" Demo.world =
      (Ok tt,
       with_files (<["pyproject.toml" :=
                      dump_toml (Platform := Demo.platform) (data saved)]>
                     (files Demo.world)) Demo.world).
Proof.
  apply (cmd_remove_rewrites_the_manifest (platform := Demo.platform)
           "/old" Demo.app_toml Demo.world Demo.app_doc Demo.old_mounts
           (VList [VStr "old.chain"; VStr "chain"])); reflexivity.
Defined.

Lemma save_then_load_witness :
  exists w',
    save (platform := DemoServe.platform) DemoServe.old DemoServe.empty_world
      = (Ok tt, w') /\
    load (platform := DemoServe.platform) "pyproject.toml" w'
      = (Ok DemoServe.old, w').
Proof.
  apply (save_then_load (platform := DemoServe.platform) DemoServe.old
           "pyproject.toml" DemoServe.empty_world); reflexivity.
Defined.

Lemma from_url_outcome_witness :
  from_url (platform := Demo.platform) "https://example.org/none" Demo.world
  = (Err token_hint, Demo.world).
Proof.
  destruct (from_url_outcome (platform := Demo.platform)
              "https://example.org/none" Demo.world) as (H & _).
  apply (H 404%Z). reflexivity.
Defined.

Lemma add_fails_with_the_fetch_witness :
  cmd_add (platform := Demo.platform) "simple/unknown" None Demo.world
  = (Err token_hint, Demo.world).
Proof.
  apply (add_fails_with_the_fetch (platform := Demo.platform)).
  reflexivity.
Defined.

Lemma add_installs_before_it_reads_the_export_witness :
  cmd_add (platform := DemoServe.platform) "simple/noexport" None
    DemoServe.world =
    (Err (ValueError no_module),
     mkWorld (files DemoServe.world) (dirs DemoServe.world)
             (environ DemoServe.world)
             (stdout DemoServe.world ++ ["Adding " +:+ "simple/noexport"]
              ++ [repr (Platform := DemoServe.platform)
                    (VDict DemoServe.noexport_doc)])
             (shell DemoServe.world
              ++ ["poetry add " +:+ _package_to_poetry "simple/noexport"])).
Proof.
  apply (add_installs_before_it_reads_the_export
           (platform := DemoServe.platform)
           "simple/noexport" DemoServe.noexport_toml DemoServe.old_toml None
           DemoServe.world DemoServe.noexport_doc DemoServe.old_doc [] 2%Z
           (files DemoServe.world)); reflexivity.
Defined.

Lemma add_needs_a_local_manifest_witness :
  cmd_add (platform := Demo.platform) "simple/pirate" None
    DemoServe.empty_world =
    (Err (FileNotFoundError "pyproject.toml"),
     mkWorld (files DemoServe.empty_world) (dirs DemoServe.empty_world)
             (environ DemoServe.empty_world)
             (stdout DemoServe.empty_world ++ ["Adding " +:+ "simple/pirate"])
             (shell DemoServe.empty_world
              ++ ["poetry add " +:+ _package_to_poetry "simple/pirate"])).
Proof.
  apply (add_needs_a_local_manifest (platform := Demo.platform)
           "simple/pirate" Demo.pirate_toml None DemoServe.empty_world
           Demo.pirate_doc 1%Z (files DemoServe.empty_world)); reflexivity.
Defined.

Lemma package_to_poetry_fixed_points_witness :
  _package_to_poetry "./local/pkg" = "./local/pkg" /\
  _package_to_poetry "simple/pirate" = git_base +:+ "simple/pirate" /\
  _package_to_pyproject Demo.token_env "./local/pkg"
  = _package_to_poetry "./local/pkg" +:+ "/pyproject.toml".
Proof.
  destruct (package_to_poetry_fixed_points "./local/pkg") as (A & _ & C).
  destruct (package_to_poetry_fixed_points "simple/pirate") as (_ & B & _).
  split; [apply A; reflexivity|]. split; [apply B; reflexivity|].
  apply C. reflexivity.
Defined.

Lemma package_to_poetry_injective_witness : "simple/pirate" = "simple/pirate".
Proof. apply package_to_poetry_injective. reflexivity. Defined.

Lemma package_to_pyproject_injective_witness : "./local/pkg" = "./local/pkg".
Proof.
  apply (package_to_pyproject_injective Demo.token_env). reflexivity.
Defined.

Lemma serve_without_mounts_witness :
  fst (cmd_serve (platform := DemoServe.platform)
         (runtime := DemoServe.runtime)
         (DemoServe.world_of DemoServe.rest_toml))
  = Ok (FastAPI (Runtime := DemoServe.runtime)).
Proof.
  apply (serve_without_mounts (platform := DemoServe.platform)
           (runtime := DemoServe.runtime)
           (DemoServe.world_of DemoServe.rest_toml) DemoServe.rest_toml
           DemoServe.rest_doc 2%Z
           (files (DemoServe.world_of DemoServe.rest_toml))); reflexivity.
Defined.

Lemma serve_rejects_a_mount_that_is_no_pair_witness :
  exists msg,
    py_unpack2 (VList [VStr "old"]) = Err (ValueError msg) /\
    cmd_serve (platform := DemoServe.platform) (runtime := DemoServe.runtime)
      (DemoServe.world_of DemoServe.bad_toml) =
      (Err (ValueError msg),
       mkWorld (files (DemoServe.world_of DemoServe.bad_toml)) ∅ ∅
               ["Validating dependencies and installing missing ones";
                "Successfully installed missing dependencies"]
               ["poetry install"]).
Proof.
  destruct (serve_rejects_a_mount_that_is_no_pair
              (platform := DemoServe.platform) (runtime := DemoServe.runtime)
              "/bad" [VStr "old"]) as (msg & Hu & _ & _ & H);
    [simpl; lia|].
  exists msg. split; [exact Hu|].
  apply (H (DemoServe.world_of DemoServe.bad_toml) DemoServe.bad_toml
           DemoServe.bad_doc [] [] 2%Z
           (files (DemoServe.world_of DemoServe.bad_toml))
           (FastAPI (Runtime := DemoServe.runtime))); reflexivity.
Defined.

(** A mount that is no pair between two that are: the first is set up,
    the loop stops at the second, the third plays no part. *)
Example mount_routes_stops_at_the_malformed_mount :
  mount_routes (runtime := DemoServe.runtime)
    [("/old", VList [VStr "old"; VStr "chain"]);
     ("/bad", VList [VStr "old"]);
     ("/late", VList [VStr "missing"; VStr "chain"])] []
  = Err (ValueError "not enough values to unpack (expected 2, got 1)").
Proof. reflexivity. Qed.

(** Unpacking a string goes by characters, not by bytes. *)
Example unpack_two_characters :
  py_unpack2 (VStr "éa") = Ok (VStr "é", VStr "a").
Proof. reflexivity. Qed.

(** [serve] on the project of [DemoServe]: the mount is set up although
    the installer exited with status 2. *)
Example serve_old_project :
  fst (cmd_serve (platform := DemoServe.platform)
         (runtime := DemoServe.runtime) DemoServe.world)
  = Ok [("/old", "old.chain")].
Proof. reflexivity. Qed.

(** ** More on the [list] command *)

(** X18. [list] succeeds in no world: it raises and leaves the world as it
    was, so it prints no mount; when the manifest loads, what it raises is
    the [TypeError] of the subscript on the loaded document, whatever the
    manifest holds. *)
Theorem list_never_succeeds {platform : Platform} (w : World) :
  (exists e, cmd_list w = (Err e, w)) /\
  (forall content d,
      files w !! "pyproject.toml" = Some content ->
      load_toml content = Some d ->
      cmd_list w = (Err (TypeError "'PyProject' object is not subscriptable"), w)).
Proof.
  split; [apply cmd_list_raises|]. intros content d. apply cmd_list_loaded.
Qed.

Lemma list_never_succeeds_witness :
  cmd_list (platform := DemoServe.platform) DemoServe.world
  = (Err (TypeError "'PyProject' object is not subscriptable"), DemoServe.world).
Proof.
  destruct (list_never_succeeds (platform := DemoServe.platform)
              DemoServe.world) as (_ & H).
  apply (H DemoServe.old_toml DemoServe.old_doc); reflexivity.
Defined.

(** ** Documents without a ["tool"] table *)

(** C5, as stated, fails: on the document of [simple/bare], which has no
    ["tool"] table, [add_langserve_path] raises, and the mount table
    cannot be listed afterwards, so it does not hold the entry. *)
Lemma add_on_a_document_without_tool_raises :
  add_langserve_path "/p" (VTuple [VStr "m"; VStr "a"]) Demo.bare
    = (Err (KeyError "tool"), Demo.bare) /\
  get_langserve_paths
    (snd (add_langserve_path "/p" (VTuple [VStr "m"; VStr "a"]) Demo.bare))
    = Err (KeyError "tool") /\
  ~ (exists t,
        get_langserve_paths
          (snd (add_langserve_path "/p" (VTuple [VStr "m"; VStr "a"]) Demo.bare))
          = Ok (VDict t) /\
        dict_get t "/p" = Some (VTuple [VStr "m"; VStr "a"])).
Proof.
  split; [reflexivity|]. split; [reflexivity|].
  intros [t [H _]]. vm_compute in H. discriminate.
Qed.

(** C7, as stated, fails: the document of [simple/bare] has no
    [export_module], for it has no ["tool"] table at all, and
    [get_langserve_export] raises a [KeyError] for ["tool"], which names
    neither field and is none of the two errors about the export. *)
Lemma export_of_a_document_without_tool_names_no_field :
  dict_get (data Demo.bare) "tool" = None /\
  get_langserve_export (platform := Demo.platform) Demo.bare Demo.world
    = (Err (KeyError "tool"), Demo.world) /\
  str_contains "export_module" "tool" = false /\
  str_contains "export_attr" "tool" = false /\
  ~ (exists msg,
        fst (get_langserve_export (platform := Demo.platform) Demo.bare
               Demo.world) = Err (ValueError msg)).
Proof.
  repeat split; try reflexivity.
  intros [msg H]. vm_compute in H. discriminate.
Qed.
